(** * Conference Central: a shallow embedding of [conference.py]

    The request handlers of [ConferenceApi] are embedded as computations
    in a state-and-exception monad over the stores the handlers touch: the
    datastore (with its id allocator), memcache and the task queue.

    Conventions.
    - The entity and message classes are declared in [models.py]; the
      records below have the attributes that [conference.py] reads or
      writes. [getUserId] is from [utils.py] and is a field of the user.
    - A websafe key (the url-safe encoding of an [ndb.Key]) is identified
      with the key it encodes; a key is its path of (kind, id) pairs.
    - [ndb.Key(urlsafe=k).get()] is a lookup in the one datastore, whatever
      the kind of the entity stored there; reading an attribute that the
      entity's kind does not have raises [AttributeError], as in Python.
    - [@ndb.transactional] runs its body and, when the body raises, restores
      the datastore the body started from and raises the same exception.
    - Requests are served one at a time (the serial order that the
      transactions guarantee); queries see the datastore as it is. *)

From Stdlib Require Import ZArith Ascii String List Lia Permutation.
From stdpp Require Import base option gmap list strings sorting.

Local Open Scope string_scope.
Local Open Scope Z_scope.
Local Open Scope list_scope.

(** ** Keys and entities *)

(** The path of an [ndb.Key]: pairs of a kind and a string or integer id. *)
Abbreviation Key := (list (string * (string + Z))).

(** [ndb.Key(kind, id, parent=parent)] *)
Definition ndb_Key (kind : string) (id : string + Z) (parent : Key) : Key :=
  parent ++ [(kind, id)].

Record Date := { year : Z; month_of : Z; day : Z }.
Record Time := { hour : Z; minute : Z }.

(** A date attribute of an entity, as [_createConferenceObject] leaves it:
    [None], the request's string when it is falsy, or a parsed date. *)
Inductive DateValue :=
| DNone
| DString (s : string)
| DDate (d : Date).

Module Profile.
Record t := mk {
  displayName : string;
  mainEmail : string;
  teeShirtSize : string;
  conferenceKeysToAttend : list Key;
  sessionWishlist : list Key
}.
Definition set_conferenceKeysToAttend (l : list Key) (p : t) : t :=
  mk (displayName p) (mainEmail p) (teeShirtSize p) l (sessionWishlist p).
Definition set_sessionWishlist (l : list Key) (p : t) : t :=
  mk (displayName p) (mainEmail p) (teeShirtSize p)
     (conferenceKeysToAttend p) l.
End Profile.

Module Conference.
Record t := mk {
  name : string;
  organizerUserId : string;
  topics : list string;
  city : string;
  startDate : DateValue;
  month : Z;
  endDate : DateValue;
  maxAttendees : Z;
  seatsAvailable : Z
}.
Definition set_seatsAvailable (n : Z) (c : t) : t :=
  mk (name c) (organizerUserId c) (topics c) (city c)
     (startDate c) (month c) (endDate c) (maxAttendees c) n.
End Conference.

Module Session.
Record t := mk {
  session_name : option string;
  speakerKey : option Key;
  startDate : option Date;
  startTime : option Time;
  duration : Z;
  typeOfSession : option string
}.
End Session.

Module Speaker.
Record t := mk {
  speaker_name : option string;
  speaker_bio : option string;
  speaker_email : option string
}.
End Speaker.

Inductive Entity :=
| EProfile (p : Profile.t)
| EConference (c : Conference.t)
| ESession (s : Session.t)
| ESpeaker (s : Speaker.t).

(** ** Requests *)

(** The authenticated user of [endpoints.get_current_user()]; [user_id] is
    what [utils.getUserId] returns for it. *)
Record User := {
  email : string;
  nickname : string;
  user_id : string
}.

Module ConferenceForm.
Record t := mk {
  name : option string;
  organizerUserId : option string;
  topics : list string;
  city : option string;
  startDate : option string;
  maxAttendees : option Z;
  seatsAvailable : option Z;
  endDate : option string;
  websafeKey : option Key;
  organizerDisplayName : option string
}.
End ConferenceForm.

(** One filter of a [ConferenceQueryForms] request. *)
Module ConferenceQueryForm.
Record t := mk {
  field : option string;
  operator : option string;
  value : option string
}.
End ConferenceQueryForm.

(** ** The stores, exceptions and the handler monad *)

(** A task of the queue: the url [/tasks/send_confirmation_email] with its
    parameters (the request stands for its [repr]). *)
Inductive Task :=
| send_confirmation_email (email_param : string)
                          (conferenceInfo : ConferenceForm.t).

Record State := mkState {
  datastore : gmap Key Entity;
  next_id : Z;
  memcache : gmap string string;
  taskqueue : list Task
}.

Definition set_datastore (d : gmap Key Entity) (st : State) : State :=
  mkState d (next_id st) (memcache st) (taskqueue st).
Definition set_next_id (n : Z) (st : State) : State :=
  mkState (datastore st) n (memcache st) (taskqueue st).
Definition set_memcache (m : gmap string string) (st : State) : State :=
  mkState (datastore st) (next_id st) m (taskqueue st).
Definition set_taskqueue (q : list Task) (st : State) : State :=
  mkState (datastore st) (next_id st) (memcache st) q.

Inductive Exception :=
| UnauthorizedException
| BadRequestException
| ForbiddenException
| NotFoundException
| ConflictException
| AttributeError
| ValueError
| TypeError.

Definition M (A : Type) : Type := State -> State * (Exception + A).

Definition ret {A} (a : A) : M A := fun st => (st, inr a).
Definition raise {A} (e : Exception) : M A := fun st => (st, inl e).
Definition bind {A B} (m : M A) (k : A -> M B) : M B :=
  fun st =>
    match m st with
    | (st', inr a) => k a st'
    | (st', inl e) => (st', inl e)
    end.

Declare Scope handler_scope.
Delimit Scope handler_scope with handler.
Notation "'let*' x ':=' m 'in' k" := (bind m (fun x => k))
  (at level 10, x name, m at level 100, k at level 200, only parsing)
  : handler_scope.
Notation "'let*' ' pat ':=' m 'in' k" :=
  (bind m (fun x => match x with pat => k end))
  (at level 10, pat pattern, m at level 100, k at level 200, only parsing)
  : handler_scope.
Notation "m ';;' k" := (bind m (fun _ => k))
  (at level 100, k at level 200, right associativity, only parsing)
  : handler_scope.
Local Open Scope handler_scope.

(** [key.get()] and [entity.put()]; an entity object carries its key, the
    model passes the key along with the entity. *)
Definition ndb_get (k : Key) : M (option Entity) :=
  fun st => (st, inr (datastore st !! k)).
Definition ndb_put (k : Key) (e : Entity) : M unit :=
  fun st => (set_datastore (<[k := e]> (datastore st)) st, inr tt).

(** [@ndb.transactional(xg=True)] *)
Definition transactional {A} (body : M A) : M A :=
  fun st =>
    match body st with
    | (st', inr a) => (st', inr a)
    | (st', inl e) => (set_datastore (datastore st) st', inl e)
    end.

(** Attribute reads on an entity of any kind. *)
Definition get_conferenceKeysToAttend (e : Entity) : M (list Key) :=
  match e with
  | EProfile p => ret (Profile.conferenceKeysToAttend p)
  | _ => raise AttributeError
  end.
Definition get_sessionWishlist (e : Entity) : M (list Key) :=
  match e with
  | EProfile p => ret (Profile.sessionWishlist p)
  | _ => raise AttributeError
  end.
Definition get_seatsAvailable (e : Entity) : M Z :=
  match e with
  | EConference c => ret (Conference.seatsAvailable c)
  | _ => raise AttributeError
  end.
Definition get_speaker_name (e : option Entity) : M (option string) :=
  match e with
  | Some (ESpeaker s) => ret (Speaker.speaker_name s)
  | _ => raise AttributeError
  end.

(** Attribute writes; they follow a successful read of the same attribute
    of the same object, so the other kinds are left as they are. *)
Definition with_conferenceKeysToAttend (l : list Key) (e : Entity) : Entity :=
  match e with
  | EProfile p => EProfile (Profile.set_conferenceKeysToAttend l p)
  | _ => e
  end.
Definition with_sessionWishlist (l : list Key) (e : Entity) : Entity :=
  match e with
  | EProfile p => EProfile (Profile.set_sessionWishlist l p)
  | _ => e
  end.
Definition with_seatsAvailable (n : Z) (e : Entity) : Entity :=
  match e with
  | EConference c => EConference (Conference.set_seatsAvailable n c)
  | _ => e
  end.

(** Python's [list.remove]: drops the first occurrence. *)
Fixpoint list_remove_first (x : Key) (l : list Key) : list Key :=
  match l with
  | [] => []
  | y :: l' => if decide (x = y) then l' else y :: list_remove_first x l'
  end.

(** ** Profiles *)

Definition profile_key (u : User) : Key := ndb_Key "Profile" (inl (user_id u)) [].

Definition new_profile (u : User) : Profile.t :=
  Profile.mk (nickname u) (email u) "NOT_SPECIFIED" [] [].

Definition _getProfileFromUser (user : option User) : M (Key * Entity) :=
  match user with
  | None => raise UnauthorizedException
  | Some u =>
    let p_key := profile_key u in
    let* profile := ndb_get p_key in
    match profile with
    | Some profile => ret (p_key, profile)
    | None =>
      let profile := EProfile (new_profile u) in
      ndb_put p_key profile;;
      ret (p_key, profile)
    end
  end.

(** ** Registration *)

Definition _conferenceRegistration_body
    (user : option User) (wsck : Key) (reg : bool) : M bool :=
  let* '(p_key, prof) := _getProfileFromUser user in
  let* conf := ndb_get wsck in
  match conf with
  | None => raise NotFoundException
  | Some conf =>
    if reg then
      let* keys := get_conferenceKeysToAttend prof in
      if bool_decide (wsck ∈ keys) then raise ConflictException else
      let* seats := get_seatsAvailable conf in
      if seats <=? 0 then raise ConflictException else
      let prof := with_conferenceKeysToAttend (keys ++ [wsck]) prof in
      let conf := with_seatsAvailable (seats - 1) conf in
      ndb_put p_key prof;;
      ndb_put wsck conf;;
      ret true
    else
      let* keys := get_conferenceKeysToAttend prof in
      if bool_decide (wsck ∈ keys) then
        let prof :=
          with_conferenceKeysToAttend (list_remove_first wsck keys) prof in
        let* seats := get_seatsAvailable conf in
        let conf := with_seatsAvailable (seats + 1) conf in
        ndb_put p_key prof;;
        ndb_put wsck conf;;
        ret true
      else
        ndb_put p_key prof;;
        ndb_put wsck conf;;
        ret false
  end.

Definition _conferenceRegistration
    (user : option User) (wsck : Key) (reg : bool) : M bool :=
  transactional (_conferenceRegistration_body user wsck reg).

Definition registerForConference (user : option User) (wsck : Key) : M bool :=
  _conferenceRegistration user wsck true.

Definition unregisterFromConference (user : option User) (wsck : Key)
  : M bool :=
  _conferenceRegistration user wsck false.

(** ** Wishlist *)

Definition _wishlistRegistration
    (user : option User) (sessionKey : Key) (add : bool) : M bool :=
  let* '(p_key, prof) := _getProfileFromUser user in
  let* session := ndb_get sessionKey in
  match session with
  | None => raise NotFoundException
  | Some _ =>
    if add then
      let* wishlist := get_sessionWishlist prof in
      if bool_decide (sessionKey ∈ wishlist) then raise ConflictException else
      let prof := with_sessionWishlist (wishlist ++ [sessionKey]) prof in
      ndb_put p_key prof;;
      ret true
    else
      let* wishlist := get_sessionWishlist prof in
      if bool_decide (sessionKey ∈ wishlist) then
        let prof :=
          with_sessionWishlist (list_remove_first sessionKey wishlist) prof in
        ndb_put p_key prof;;
        ret true
      else raise ConflictException
  end.

Definition addSessionToWishlist (user : option User) (sessionKey : Key)
  : M bool :=
  _wishlistRegistration user sessionKey true.

Definition removeSessionFromWishlist (user : option User) (sessionKey : Key)
  : M bool :=
  _wishlistRegistration user sessionKey false.

(** ** Conference creation *)

Module DEFAULTS.
Definition city : string := "Default City".
Definition maxAttendees : Z := 0.
Definition seatsAvailable : Z := 0.
Definition topics : list string := ["Default"; "Topic"].
End DEFAULTS.

(** [Conference.allocate_ids(size=1, parent=p_key)[0]] *)
Definition allocate_id : M Z :=
  fun st => (set_next_id (next_id st + 1) st, inr (next_id st)).

Definition taskqueue_add (t : Task) : M unit :=
  fun st => (set_taskqueue (taskqueue st ++ [t]) st, inr tt).

Section ConferenceCreation.

(** [datetime.strptime(s, "%Y-%m-%d").date()], [None] for [ValueError]. *)
Variable strptime_date : string -> option Date.

(** The conversion of a date field of the request: a truthy string is cut
    to ten characters and parsed, anything else is kept. *)
Definition convert_date (field : option string) : M DateValue :=
  match field with
  | None => ret DNone
  | Some s =>
    if decide (s = "") then ret (DString s) else
    match strptime_date (substring 0 10 s) with
    | Some d => ret (DDate d)
    | None => raise ValueError
    end
  end.

Definition _createConferenceObject
    (user : option User) (request : ConferenceForm.t)
  : M ConferenceForm.t :=
  match user with
  | None => raise UnauthorizedException
  | Some user =>
    let user_id := user_id user in
    match ConferenceForm.name request with
    | None => raise BadRequestException
    | Some name =>
      if decide (name = "") then raise BadRequestException else
      (* defaults for the missing values, in [data] and in [request] *)
      let city := default DEFAULTS.city (ConferenceForm.city request) in
      let maxAttendees :=
        default DEFAULTS.maxAttendees (ConferenceForm.maxAttendees request) in
      let seatsAvailable :=
        default DEFAULTS.seatsAvailable
                (ConferenceForm.seatsAvailable request) in
      let topics :=
        match ConferenceForm.topics request with
        | [] => DEFAULTS.topics
        | ts => ts
        end in
      (* dates, and the month of the start date *)
      let* startDate := convert_date (ConferenceForm.startDate request) in
      let month :=
        match startDate with
        | DDate d => month_of d
        | _ => 0
        end in
      let* endDate := convert_date (ConferenceForm.endDate request) in
      (* seatsAvailable as maxAttendees *)
      let seatsAvailable :=
        if 0 <? maxAttendees then maxAttendees else seatsAvailable in
      let p_key := ndb_Key "Profile" (inl user_id) [] in
      let* c_id := allocate_id in
      let c_key := ndb_Key "Conference" (inr c_id) p_key in
      let request :=
        ConferenceForm.mk
          (ConferenceForm.name request)
          (Some user_id)
          topics
          (Some city)
          (ConferenceForm.startDate request)
          (Some maxAttendees)
          (Some seatsAvailable)
          (ConferenceForm.endDate request)
          (ConferenceForm.websafeKey request)
          (ConferenceForm.organizerDisplayName request) in
      ndb_put c_key
        (EConference
           (Conference.mk name user_id topics city startDate month endDate
              maxAttendees seatsAvailable));;
      taskqueue_add (send_confirmation_email (email user) request);;
      ret request
    end
  end.

End ConferenceCreation.

(** The endpoint [createConference] calls [self._createConferenceObject]
    with the request as its one argument. [_createConferenceObject] is a
    [@staticmethod] declared with the two parameters [self] and [request],
    so the call raises [TypeError] before the body runs. The statements about
    creation below are about [_createConferenceObject] itself. *)
Definition createConference (user : option User) (request : ConferenceForm.t)
  : M ConferenceForm.t :=
  raise TypeError.

(** ** Query filters *)

Definition OPERATORS : gmap string string :=
  list_to_map
    [("EQ", "="); ("GT", ">"); ("GTEQ", ">="); ("LT", "<"); ("LTEQ", "<=");
     ("NE", "!=")].

Definition FIELDS : gmap string string :=
  list_to_map
    [("CITY", "city"); ("TOPIC", "topics"); ("MONTH", "month");
     ("MAX_ATTENDEES", "maxAttendees")].

(** A formatted filter: the dict with keys [field], [operator], [value]. *)
Record Filter := mkFilter {
  filter_field : string;
  filter_operator : string;
  filter_value : option string
}.

(** Truth value of [inequality_field], which is [None] or a string. *)
Definition truthy (s : option string) : bool :=
  match s with
  | None => false
  | Some s => negb (bool_decide (s = ""))
  end.

(** The loop of [_formatFilters], with its two variables as accumulators;
    a [KeyError] of either table lookup is caught and raised again as
    [BadRequestException]. *)
Fixpoint _formatFilters_loop
    (filters : list ConferenceQueryForm.t)
    (inequality_field : option string) (formatted_filters : list Filter)
  : Exception + (option string * list Filter) :=
  match filters with
  | [] => inr (inequality_field, formatted_filters)
  | f :: filters =>
    match ConferenceQueryForm.field f ≫= (FIELDS !!.),
          ConferenceQueryForm.operator f ≫= (OPERATORS !!.) with
    | Some field, Some operator =>
      let filtr := mkFilter field operator (ConferenceQueryForm.value f) in
      if negb (bool_decide (operator = "=")) then
        if truthy inequality_field
           && negb (bool_decide (inequality_field = Some field))
        then inl BadRequestException
        else _formatFilters_loop filters (Some field)
                                 (formatted_filters ++ [filtr])
      else _formatFilters_loop filters inequality_field
                               (formatted_filters ++ [filtr])
    | _, _ => inl BadRequestException
    end
  end.

Definition _formatFilters (filters : list ConferenceQueryForm.t)
  : Exception + (option string * list Filter) :=
  _formatFilters_loop filters None [].

(** ** Announcements and the featured speaker *)

Definition MEMCACHE_ANNOUNCEMENTS_KEY : string := "RECENT_ANNOUNCEMENTS".
Definition MEMCACHE_FEATURED_SPEAKER_KEY : string := "FEATURED_SPEAKER".

Definition memcache_set (k v : string) : M unit :=
  fun st => (set_memcache (<[k := v]> (memcache st)) st, inr tt).
Definition memcache_delete (k : string) : M unit :=
  fun st => (set_memcache (delete k (memcache st)) st, inr tt).
Definition memcache_get (k : string) : M (option string) :=
  fun st => (st, inr (memcache st !! k)).

(** The entities of kind Conference, with their keys. *)
Definition conferences (d : gmap Key Entity) : list (Key * Conference.t) :=
  map_to_list
    (omap (fun e => match e with EConference c => Some c | _ => None end) d).

(** The entities of kind Session, with their keys. *)
Definition sessions (d : gmap Key Entity) : list (Key * Session.t) :=
  map_to_list
    (omap (fun e => match e with ESession s => Some s | _ => None end) d).

(** ['%s %s' % (a, b)] *)
Definition format2 (a b : string) : string := a +:+ " " +:+ b.

(** The string that [%s] prints for an optional string. *)
Definition str (s : option string) : string := default "None" s.

(** [sep.join(l)] *)
Definition join (sep : string) (l : list string) : string := String.concat sep l.

Section Announcement.

(** The order in which the datastore returns the results of a query. *)
Variable fetch_order :
  list (Key * Conference.t) -> list (Key * Conference.t).

Definition _cacheAnnouncement : M string :=
  fun st =>
    let confs :=
      fetch_order
        (filter (fun kc => Conference.seatsAvailable kc.2 <= 5
                           ∧ Conference.seatsAvailable kc.2 > 0)
                (conferences (datastore st))) in
    match confs with
    | _ :: _ =>
      let announcement :=
        format2
          ("Last chance to attend! The following conferences "
           +:+ "are nearly sold out:")
          (join ", " (map (fun kc => Conference.name kc.2) confs)) in
      (memcache_set MEMCACHE_ANNOUNCEMENTS_KEY announcement;;
       ret announcement) st
    | [] =>
      (memcache_delete MEMCACHE_ANNOUNCEMENTS_KEY;;
       ret "") st
    end.

End Announcement.

Definition getAnnouncement : M string :=
  let* announcement := memcache_get MEMCACHE_ANNOUNCEMENTS_KEY in
  if truthy announcement then ret (default "" announcement) else ret "".

(** [Session.query(ancestor=confKey).filter(Session.speakerKey ==
    speakerKey).count()] *)
Definition session_count (confKey speakerKey : Key) (d : gmap Key Entity)
  : Z :=
  Z.of_nat
    (length
       (filter (fun ks => confKey `prefix_of` ks.1
                          ∧ Session.speakerKey ks.2 = Some speakerKey)
               (sessions d))).

Definition _cacheFeaturedSpeaker (speakerKey conferenceKey : Key) : M string :=
  let confKey := conferenceKey in
  let* sessionCount :=
    (fun st => (st, inr (session_count confKey speakerKey (datastore st)))) in
  if 1 <? sessionCount then
    let* speaker := ndb_get speakerKey in
    let* name := get_speaker_name speaker in
    let featuredSpeaker :=
      format2 "The featured speaker for this conference is: " (str name) in
    memcache_set MEMCACHE_FEATURED_SPEAKER_KEY featuredSpeaker;;
    ret featuredSpeaker
  else ret "".

Definition getFeaturedSpeaker : M string :=
  let* featuredSpeaker := memcache_get MEMCACHE_FEATURED_SPEAKER_KEY in
  if truthy featuredSpeaker then ret (default "" featuredSpeaker) else ret "".

(** ** Sequences of registration requests *)

Inductive Call :=
| RegisterForConference (user : option User) (wsck : Key)
| UnregisterFromConference (user : option User) (wsck : Key).

Definition serve (c : Call) : M bool :=
  match c with
  | RegisterForConference user wsck => registerForConference user wsck
  | UnregisterFromConference user wsck => unregisterFromConference user wsck
  end.

(** The requests are served in order; the responses are collected. *)
Fixpoint serve_all (cs : list Call) (st : State)
  : State * list (Exception + bool) :=
  match cs with
  | [] => (st, [])
  | c :: cs =>
    let '(st1, r) := serve c st in
    let '(st2, rs) := serve_all cs st1 in
    (st2, r :: rs)
  end.

(** A registration for [wsck] that was answered with [True]. *)
Definition is_registration (wsck : Key) (c : Call) (r : Exception + bool)
  : bool :=
  match c, r with
  | RegisterForConference _ k, inr true => bool_decide (k = wsck)
  | _, _ => false
  end.

(** An unregistration from [wsck] that was answered with [True]. *)
Definition is_unregistration (wsck : Key) (c : Call) (r : Exception + bool)
  : bool :=
  match c, r with
  | UnregisterFromConference _ k, inr true => bool_decide (k = wsck)
  | _, _ => false
  end.

Fixpoint count_calls (p : Call -> Exception + bool -> bool)
    (cs : list Call) (rs : list (Exception + bool)) : Z :=
  match cs, rs with
  | c :: cs, r :: rs => (if p c r then 1 else 0) + count_calls p cs rs
  | _, _ => 0
  end.

(** ** Notions used in the statements *)

(** *** Registration *)

(** The profile a request of [u] works on: the stored one, or the one that
    [_getProfileFromUser] creates. *)
Definition caller_profile (st : State) (u : User) : option Profile.t :=
  match datastore st !! profile_key u with
  | Some (EProfile p) => Some p
  | Some _ => None
  | None => Some (new_profile u)
  end.

(** The state once [_getProfileFromUser] has run for [u]. *)
Definition with_profile (st : State) (u : User) (p : Profile.t) : State :=
  set_datastore (<[profile_key u := EProfile p]> (datastore st)) st.

(** How often [wsck] occurs in the attending list of an entity, and in the
    attending lists of all profiles of a datastore. *)
Fixpoint occurrences (wsck : Key) (l : list Key) : Z :=
  match l with
  | [] => 0
  | k :: l => (if decide (wsck = k) then 1 else 0) + occurrences wsck l
  end.

Definition attending (wsck : Key) (e : Entity) : Z :=
  match e with
  | EProfile p => occurrences wsck (Profile.conferenceKeysToAttend p)
  | _ => 0
  end.

Definition attendance (wsck : Key) (d : gmap Key Entity) : Z :=
  map_fold (fun _ e n => attending wsck e + n) 0 d.

(** The free seats of the conference stored under [w], if there is one. *)
Definition seats_at (w : Key) (st : State) : Z :=
  match datastore st !! w with
  | Some (EConference c) => Conference.seatsAvailable c
  | _ => 0
  end.

(** How often [w] is in the attending list of the profile of [user]. *)
Definition attending_of (user : option User) (w : Key) (st : State) : Z :=
  match user with
  | Some u => from_option (attending w) 0 (datastore st !! profile_key u)
  | None => 0
  end.

(** The seat invariant of the conference [w] of capacity [cap] with [s] free
    seats: the free seats and the seats taken add up to the capacity. *)
Definition seats_inv (w : Key) (cap s : Z) (d : gmap Key Entity) : Prop :=
  ∃ c, d !! w = Some (EConference c)
       ∧ Conference.maxAttendees c = cap
       ∧ Conference.seatsAvailable c = s
       ∧ 0 <= s
       ∧ s + attendance w d = cap.

(** A handler that writes to the datastore only. *)
Definition datastore_only {A} (m : M A) : Prop :=
  ∀ st st' r, m st = (st', r) -> st' = set_datastore (datastore st') st.

(** *** Query filters *)

(** The field and the operator of a filter, looked up in the tables. *)
Definition field_of (f : ConferenceQueryForm.t) : option string :=
  ConferenceQueryForm.field f ≫= (FIELDS !!.).
Definition operator_of (f : ConferenceQueryForm.t) : option string :=
  ConferenceQueryForm.operator f ≫= (OPERATORS !!.).
Definition valid_filter (f : ConferenceQueryForm.t) : Prop :=
  is_Some (field_of f) ∧ is_Some (operator_of f).
Definition inequality_filter (f : ConferenceQueryForm.t) : Prop :=
  ∃ sym, operator_of f = Some sym ∧ sym ∈ [">"; ">="; "<"; "<="; "!="].

(** The filters that [_formatFilters] refuses: one is outside the tables, or
    two inequality filters name different fields. *)
Definition rejected (filters : list ConferenceQueryForm.t) : Prop :=
  (∃ f, f ∈ filters ∧ ¬ valid_filter f)
  ∨ (∃ f1 f2,
        f1 ∈ filters ∧ f2 ∈ filters
        ∧ inequality_filter f1 ∧ inequality_filter f2
        ∧ ConferenceQueryForm.field f1 ≠ ConferenceQueryForm.field f2).

Definition clash (iq : option string) (filters : list ConferenceQueryForm.t)
  : Prop :=
  ∃ x f, iq = Some x ∧ f ∈ filters ∧ valid_filter f ∧ inequality_filter f
         ∧ field_of f ≠ Some x.

(** The formatted filter [g] is the filter [f] with its field and operator
    replaced by the table entries. *)
Definition formats (f : ConferenceQueryForm.t) (g : Filter) : Prop :=
  field_of f = Some (filter_field g)
  ∧ operator_of f = Some (filter_operator g)
  ∧ filter_value g = ConferenceQueryForm.value f.

(** *** Creation and the caches *)

(** A date field that [convert_date] accepts. *)
Definition date_ok (strptime_date : string -> option Date)
    (field : option string) : Prop :=
  match field with
  | None => True
  | Some s => s = "" ∨ is_Some (strptime_date (substring 0 10 s))
  end.

(** The string that [_cacheFeaturedSpeaker] caches for a speaker. *)
Definition featured (sp : Speaker.t) : string :=
  format2 "The featured speaker for this conference is: "
          (str (Speaker.speaker_name sp)).

(** The filter of the query of [_cacheAnnouncement]. *)
Definition nearly_sold_out (kc : Key * Conference.t) : Prop :=
  Conference.seatsAvailable kc.2 <= 5 ∧ Conference.seatsAvailable kc.2 > 0.

(** The announcement for the conferences [confs]. *)
Definition announcement_of (confs : list (Key * Conference.t)) : string :=
  format2
    "Last chance to attend! The following conferences are nearly sold out:"
    (join ", " (map (fun kc => Conference.name kc.2) confs)).

(** ** A date parser for the examples

    [strptime_ymd] follows [datetime.strptime] with the format
    ["%Y-%m-%d"]: four digits, a month [1[0-2]|0[1-9]|[1-9]], a day
    [3[01]|[12]\d|0[1-9]|[1-9]| [1-9]], nothing after it, and a date that
    exists in the calendar. *)

Definition is_digit (c : ascii) : bool :=
  let n := Z.of_nat (nat_of_ascii c) in (48 <=? n) && (n <=? 57).

Definition digit (c : ascii) : Z := Z.of_nat (nat_of_ascii c) - 48.

Definition parse_year (s : string) : option (Z * string) :=
  match s with
  | String a (String b (String c (String d rest))) =>
    if is_digit a && is_digit b && is_digit c && is_digit d
    then Some (1000 * digit a + 100 * digit b + 10 * digit c + digit d, rest)
    else None
  | _ => None
  end.

Definition two_digit_month (a b : ascii) : bool :=
  is_digit a && is_digit b
  && (((digit a =? 1) && (digit b <=? 2))
      || ((digit a =? 0) && (1 <=? digit b))).

Definition parse_month (s : string) : option (Z * string) :=
  match s with
  | String a (String "-"%char rest) =>
    if is_digit a && (1 <=? digit a) then Some (digit a, rest) else None
  | String a (String b (String "-"%char rest)) =>
    if two_digit_month a b then Some (10 * digit a + digit b, rest) else None
  | _ => None
  end.

Definition two_digit_day (a b : ascii) : bool :=
  is_digit a && is_digit b
  && (((digit a =? 3) && (digit b <=? 1))
      || ((1 <=? digit a) && (digit a <=? 2))
      || ((digit a =? 0) && (1 <=? digit b))).

Definition parse_day (s : string) : option Z :=
  match s with
  | String a EmptyString =>
    if is_digit a && (1 <=? digit a) then Some (digit a) else None
  | String a (String b EmptyString) =>
    if two_digit_day a b then Some (10 * digit a + digit b)
    else if Ascii.eqb a " "%char && is_digit b && (1 <=? digit b)
    then Some (digit b)
    else None
  | _ => None
  end.

Definition is_leap (y : Z) : bool :=
  (y mod 4 =? 0) && (negb (y mod 100 =? 0) || (y mod 400 =? 0)).

Definition days_in_month (y m : Z) : Z :=
  if m =? 2 then (if is_leap y then 29 else 28)
  else if (m =? 4) || (m =? 6) || (m =? 9) || (m =? 11) then 30
  else 31.

Definition strptime_ymd (s : string) : option Date :=
  match parse_year s with
  | Some (y, String "-"%char s) =>
    match parse_month s with
    | Some (m, s) =>
      match parse_day s with
      | Some d =>
        if (1 <=? y) && (d <=? days_in_month y m)
        then Some {| year := y; month_of := m; day := d |}
        else None
      | None => None
      end
    | None => None
    end
  | _ => None
  end.

(** ** Example data *)

Definition alice : User :=
  {| email := "alice@example.com"; nickname := "alice";
     user_id := "alice@example.com" |}.

Definition bob : User :=
  {| email := "bob@example.com"; nickname := "bob";
     user_id := "bob@example.com" |}.

(** An empty application. *)
Definition st_empty : State := mkState ∅ 1 ∅ [].

(** Alice's first conference, with two seats. *)
Definition pycon_key : Key := ndb_Key "Conference" (inr 1) (profile_key alice).

Definition pycon : Conference.t :=
  Conference.mk "PyCon" "alice@example.com" ["Default"; "Topic"]
                "Default City" (DDate (Build_Date 2015 10 5)) 10 DNone 2 2.

Definition pycon_form : ConferenceForm.t :=
  ConferenceForm.mk (Some "PyCon") None [] None
                    (Some "2015-10-05T00:00:00") (Some 2) None None
                    None None.

Definition st_pycon : State :=
  mkState {[pycon_key := EConference pycon]} 2 ∅
          [send_confirmation_email "alice@example.com"
             (ConferenceForm.mk (Some "PyCon") (Some "alice@example.com")
                ["Default"; "Topic"] (Some "Default City")
                (Some "2015-10-05T00:00:00") (Some 2) (Some 2) None
                None None)].

(** Bob and Alice register (each tries twice), then Bob unregisters
    (twice). *)
Definition example_calls : list Call :=
  [RegisterForConference (Some bob) pycon_key;
   RegisterForConference (Some bob) pycon_key;
   RegisterForConference (Some alice) pycon_key;
   RegisterForConference (Some alice) pycon_key;
   UnregisterFromConference (Some bob) pycon_key;
   UnregisterFromConference (Some bob) pycon_key].

(** The same conference once Bob and Alice have taken the two seats. *)
Definition st_pycon_full : State :=
  (serve_all [RegisterForConference (Some bob) pycon_key;
              RegisterForConference (Some alice) pycon_key] st_pycon).1.

(** Three filters: one equality and two inequalities on the month. *)
Definition f_city : ConferenceQueryForm.t :=
  ConferenceQueryForm.mk (Some "CITY") (Some "EQ") (Some "London").
Definition f_month_gt : ConferenceQueryForm.t :=
  ConferenceQueryForm.mk (Some "MONTH") (Some "GT") (Some "5").
Definition f_month_lt : ConferenceQueryForm.t :=
  ConferenceQueryForm.mk (Some "MONTH") (Some "LT") (Some "9").

(** A request with no capacity and seven seats. *)
Definition odd_form : ConferenceForm.t :=
  ConferenceForm.mk (Some "PyCon") None [] None None
                    (Some 0) (Some 7) None None None.

Definition ada_key : Key := ndb_Key "Speaker" (inr 10) [].
Definition grace_key : Key := ndb_Key "Speaker" (inr 11) [].
Definition ada : Speaker.t := Speaker.mk (Some "Ada Lovelace") None None.
Definition grace : Speaker.t := Speaker.mk (Some "Grace Hopper") None None.

Definition jsconf_key : Key := ndb_Key "Conference" (inr 2) (profile_key alice).

Definition conference (name : string) (maxAttendees seatsAvailable : Z)
  : Conference.t :=
  Conference.mk name "alice@example.com" ["Default"; "Topic"]
                "Default City" DNone 0 DNone maxAttendees seatsAvailable.

Definition talk (speaker : Key) : Session.t :=
  Session.mk (Some "Talk") (Some speaker) None None 0 (Some "lecture").

Definition session_key (conf : Key) (id : Z) : Key :=
  ndb_Key "Session" (inr id) conf.

(** Two conferences: Ada gives two talks and Grace one at PyCon, Grace gives
    two talks at JSConf. *)
Definition st_sessions : State :=
  mkState
    (list_to_map
       [(pycon_key, EConference pycon);
        (jsconf_key, EConference (conference "JSConf" 10 10));
        (ada_key, ESpeaker ada);
        (grace_key, ESpeaker grace);
        (session_key pycon_key 20, ESession (talk ada_key));
        (session_key pycon_key 21, ESession (talk ada_key));
        (session_key pycon_key 22, ESession (talk grace_key));
        (session_key jsconf_key 23, ESession (talk grace_key));
        (session_key jsconf_key 24, ESession (talk grace_key))])
    30 ∅ [].

(** Four conferences with three, two, five and no seats left. *)
Definition st_four : State :=
  mkState
    (list_to_map
       [(ndb_Key "Conference" (inr 1) (profile_key alice),
         EConference (conference "PyCon" 10 3));
        (ndb_Key "Conference" (inr 2) (profile_key alice),
         EConference (conference "JSConf" 10 2));
        (ndb_Key "Conference" (inr 3) (profile_key alice),
         EConference (conference "RustConf" 10 5));
        (ndb_Key "Conference" (inr 4) (profile_key alice),
         EConference (conference "GopherCon" 10 0))])
    5 ∅ [].

(** Results in the order of the index on [seatsAvailable]. *)
Definition seats_le (a b : Key * Conference.t) : Prop :=
  Conference.seatsAvailable a.2 <= Conference.seatsAvailable b.2.

#[local] Instance seats_le_dec : RelDecision seats_le.
Proof. intros a b. unfold seats_le. apply _. Defined.

Definition fetch_by_seats (l : list (Key * Conference.t))
  : list (Key * Conference.t) :=
  merge_sort seats_le l.

(** * Further handlers *)

(** ** Speakers *)

(** The request of [addSpeaker] has the three fields of
    [SPEAKER_POST_REQUEST]; they become the attributes of the speaker. *)
Definition addSpeaker (user : option User)
    (speaker_name speaker_bio speaker_email : option string) : M bool :=
  _getProfileFromUser user;;
  let* s_id := allocate_id in
  let speaker_key := ndb_Key "Speaker" (inr s_id) [] in
  ndb_put speaker_key
    (ESpeaker (Speaker.mk speaker_name speaker_bio speaker_email));;
  ret true.

(** ** Queries for conferences *)

(** The value of a filter once [_getQuery] has looked at it: the request's
    string (or [None]), or the integer that [int] made of it. *)
Inductive Value :=
| VNone
| VString (s : string)
| VInt (n : Z).

(** [ndb.query.FilterNode(name, opsymbol, value)], kept as its arguments. *)
Record FilterNode := mkFilterNode {
  node_name : string;
  node_opsymbol : string;
  node_value : Value
}.

(** A query: its kind, its sort orders and its filters, in the order in
    which [order] and [filter] added them. *)
Record Query := mkQuery {
  query_kind : string;
  query_orders : list string;
  query_filters : list FilterNode
}.

Definition Query_order (property : string) (q : Query) : Query :=
  mkQuery (query_kind q) (query_orders q ++ [property]) (query_filters q).

Definition Query_filter (node : FilterNode) (q : Query) : Query :=
  mkQuery (query_kind q) (query_orders q) (query_filters q ++ [node]).

Definition value_of (v : option string) : Value :=
  match v with
  | None => VNone
  | Some s => VString s
  end.

Section Query.

(** [int(s)] for a string [s]; [None] for [ValueError]. *)
Variable int : string -> option Z.

(** [int(filtr["value"])]: [int(None)] raises [TypeError]. *)
Definition int_value (v : option string) : Exception + Value :=
  match v with
  | None => inl TypeError
  | Some s =>
    match int s with
    | Some n => inr (VInt n)
    | None => inl ValueError
    end
  end.

(** The loop of [_getQuery] over the formatted filters. *)
Fixpoint _getQuery_loop (filters : list Filter) (q : Query)
  : Exception + Query :=
  match filters with
  | [] => inr q
  | filtr :: filters =>
    match (if bool_decide (filter_field filtr ∈ ["month"; "maxAttendees"])
           then int_value (filter_value filtr)
           else inr (value_of (filter_value filtr))) with
    | inl e => inl e
    | inr value =>
      let formatted_query :=
        mkFilterNode (filter_field filtr) (filter_operator filtr) value in
      _getQuery_loop filters (Query_filter formatted_query q)
    end
  end.

(** [_getQuery(request)], for the filters of the request. *)
Definition _getQuery (filters : list ConferenceQueryForm.t)
  : Exception + Query :=
  let q := mkQuery "Conference" [] [] in
  match _formatFilters filters with
  | inl e => inl e
  | inr (inequality_field, filters) =>
    let q :=
      if negb (truthy inequality_field) then Query_order "name" q
      else Query_order "name"
             (Query_order (default "" inequality_field) q) in
    _getQuery_loop filters q
  end.

End Query.

(** ** The attendees of a conference *)

Definition get_organizerUserId (e : Entity) : M string :=
  match e with
  | EConference c => ret (Conference.organizerUserId c)
  | _ => raise AttributeError
  end.

(** The entities of kind Profile, with their keys. *)
Definition profiles (d : gmap Key Entity) : list (Key * Profile.t) :=
  map_to_list
    (omap (fun e => match e with EProfile p => Some p | _ => None end) d).

(** [Profile.query().filter(Profile.conferenceKeysToAttend == wsck)]: the
    profiles whose list holds [wsck]. *)
Definition attendees (wsck : Key) (d : gmap Key Entity)
  : list (Key * Profile.t) :=
  filter (fun kp => wsck ∈ Profile.conferenceKeysToAttend kp.2) (profiles d).

Section Attendees.

(** [ProfileMiniForm] and the enumeration [TeeShirtSize] are declared in
    [models.py]; the copy of a profile into the form, which may raise, is
    taken as it is. *)
Variable ProfileMiniForm : Type.
Variable _copyProfileMiniToForm : Profile.t -> Exception + ProfileMiniForm.

(** The order in which the datastore returns the profiles of a query. *)
Variable fetch_profiles : list (Key * Profile.t) -> list (Key * Profile.t).

(** [[self._copyProfileMiniToForm(prof) for prof in attendees]] *)
Fixpoint copy_profiles (l : list (Key * Profile.t))
  : Exception + list ProfileMiniForm :=
  match l with
  | [] => inr []
  | kp :: l =>
    match _copyProfileMiniToForm kp.2 with
    | inl e => inl e
    | inr pf =>
      match copy_profiles l with
      | inl e => inl e
      | inr pfs => inr (pf :: pfs)
      end
    end
  end.

Definition getConferenceAttendees (user : option User) (wsck : Key)
  : M (list ProfileMiniForm) :=
  match user with
  | None => raise UnauthorizedException
  | Some user =>
    let user_id := user_id user in
    let* conf := ndb_get wsck in
    match conf with
    | None => raise BadRequestException
    | Some conf =>
      let* organizerUserId := get_organizerUserId conf in
      if bool_decide (user_id ≠ organizerUserId)
      then raise ForbiddenException
      else
        fun st =>
          let attendees := fetch_profiles (attendees wsck (datastore st)) in
          match copy_profiles attendees with
          | inl e => (st, inl e)
          | inr items => (st, inr items)
          end
    end
  end.

End Attendees.

(** ** Reading conferences *)

(** [key.parent()]: [None] for a key of one pair. *)
Definition Key_parent (k : Key) : option Key :=
  match k with
  | [] | [_] => None
  | _ => Some (removelast k)
  end.

(** [getattr(prof, 'displayName')], for what [key.get()] returned. *)
Definition get_displayName (e : option Entity) : M string :=
  match e with
  | Some (EProfile p) => ret (Profile.displayName p)
  | _ => raise AttributeError
  end.

(** [Conference.query(ancestor=p_key)]: the conferences under [p_key]. *)
Definition conferences_of (p_key : Key) (d : gmap Key Entity)
  : list (Key * Conference.t) :=
  filter (fun kc => p_key `prefix_of` kc.1) (conferences d).

Section ReadingConferences.

(** [_copyConferenceToForm] copies the fields that [ConferenceForm] declares
    in [models.py] from the entity (which carries its key) and checks the
    form; it is taken as it is, and may raise. *)
Variable _copyConferenceToForm :
  Key -> Entity -> string -> Exception + ConferenceForm.t.

(** The order in which the datastore returns the results of a query. *)
Variable fetch_order :
  list (Key * Conference.t) -> list (Key * Conference.t).

Definition getConference (websafeConferenceKey : Key) : M ConferenceForm.t :=
  let* conf := ndb_get websafeConferenceKey in
  match conf with
  | None => raise NotFoundException
  | Some conf =>
    match Key_parent websafeConferenceKey with
    | None => raise AttributeError
    | Some parent =>
      let* prof := ndb_get parent in
      let* displayName := get_displayName prof in
      fun st =>
        (st, _copyConferenceToForm websafeConferenceKey conf displayName)
    end
  end.

(** [[self._copyConferenceToForm(conf, displayName) for conf in
    conferences]] *)
Fixpoint copy_conferences (displayName : string)
    (l : list (Key * Conference.t)) : Exception + list ConferenceForm.t :=
  match l with
  | [] => inr []
  | kc :: l =>
    match _copyConferenceToForm kc.1 (EConference kc.2) displayName with
    | inl e => inl e
    | inr cf =>
      match copy_conferences displayName l with
      | inl e => inl e
      | inr cfs => inr (cf :: cfs)
      end
    end
  end.

Definition getConferencesCreated (user : option User)
  : M (list ConferenceForm.t) :=
  match user with
  | None => raise UnauthorizedException
  | Some user =>
    let p_key := ndb_Key "Profile" (inl (user_id user)) [] in
    let* prof := ndb_get p_key in
    let* displayName := get_displayName prof in
    fun st =>
      let conferences := fetch_order (conferences_of p_key (datastore st)) in
      (st, copy_conferences displayName conferences)
  end.

(** [ndb.get_multi(keys)]: the entities stored under the keys, each with
    its key, and [None] where nothing is stored. *)
Definition get_multi (keys : list Key) : M (list (option (Key * Entity))) :=
  fun st => (st, inr ((fun k => pair k <$> datastore st !! k) <$> keys)).

(** A list comprehension whose expression may raise. *)
Fixpoint comprehension {A B} (f : A -> Exception + B) (l : list A)
  : Exception + list B :=
  match l with
  | [] => inr []
  | a :: l =>
    match f a with
    | inl e => inl e
    | inr b =>
      match comprehension f l with
      | inl e => inl e
      | inr bs => inr (b :: bs)
      end
    end
  end.

(** [ndb.Key(Profile, conf.organizerUserId)], for a result of
    [get_multi]. *)
Definition organiser_key (conf : option (Key * Entity)) : Exception + Key :=
  match conf with
  | Some (_, EConference c) =>
    inr (ndb_Key "Profile" (inl (Conference.organizerUserId c)) [])
  | _ => inl AttributeError
  end.

(** [key.id()]: the id of the last pair (a key has at least one pair). *)
Definition Key_id (k : Key) : string + Z := default (inl "") (snd <$> last k).

(** The loop [names[profile.key.id()] = profile.displayName]. *)
Fixpoint names_loop (profiles : list (option (Key * Entity)))
    (names : gmap (string + Z) string)
  : Exception + gmap (string + Z) string :=
  match profiles with
  | [] => inr names
  | profile :: profiles =>
    match profile with
    | Some (key, EProfile p) =>
      names_loop profiles (<[Key_id key := Profile.displayName p]> names)
    | _ => inl AttributeError
    end
  end.

(** [self._copyConferenceToForm(conf, names[conf.organizerUserId])]. The
    loop above has put the organizer of every conference into [names], so
    that the lookup finds it. *)
Definition form_with_name (names : gmap (string + Z) string)
    (conf : option (Key * Entity)) : Exception + ConferenceForm.t :=
  match conf with
  | Some (key, EConference c) =>
    _copyConferenceToForm key (EConference c)
      (default "" (names !! inl (Conference.organizerUserId c)))
  | _ => inl AttributeError
  end.

Definition getConferencesToAttend (user : option User)
  : M (list ConferenceForm.t) :=
  let* '(_, prof) := _getProfileFromUser user in
  let* conf_keys := get_conferenceKeysToAttend prof in
  let* conferences := get_multi conf_keys in
  let* organisers :=
    (fun st => (st, comprehension organiser_key conferences)) in
  let* profiles := get_multi organisers in
  let* names := (fun st => (st, names_loop profiles ∅)) in
  fun st => (st, comprehension (form_with_name names) conferences).

End ReadingConferences.

(** ** Notions used in the further statements *)

(** Every stored key that ends in an allocated (integer) id ends in an id
    below the next one of the allocator. *)
Definition ids_allocated (st : State) : Prop :=
  ∀ k kind n, is_Some (datastore st !! k) -> last k = Some (kind, inr n) ->
              n < next_id st.


(** A filter on [month] or [maxAttendees], whose value [_getQuery] makes an
    integer. *)
Definition numeric_filter (f : ConferenceQueryForm.t) : Prop :=
  field_of f = Some "month" ∨ field_of f = Some "maxAttendees".

(** The node that the loop of [_getQuery] builds for a formatted filter. *)
Definition node_of (int : string -> option Z)
    (g : Filter) (node : FilterNode) : Prop :=
  node_name node = filter_field g
  ∧ node_opsymbol node = filter_operator g
  ∧ if bool_decide (node_name node ∈ ["month"; "maxAttendees"])
    then ∃ s n, filter_value g = Some s ∧ int s = Some n
                ∧ node_value node = VInt n
    else node_value node = value_of (filter_value g).


(** The form for the key [w] of an attending list: the copy of the
    conference under [w] with the display name of its organizer's profile. *)
Definition attended_form
    (_copyConferenceToForm :
       Key -> Entity -> string -> Exception + ConferenceForm.t)
    (d : gmap Key Entity) (w : Key) : Exception + ConferenceForm.t :=
  match d !! w with
  | Some (EConference c) =>
    match d !! ndb_Key "Profile" (inl (Conference.organizerUserId c)) [] with
    | Some (EProfile q) =>
      _copyConferenceToForm w (EConference c) (Profile.displayName q)
    | _ => inl AttributeError
    end
  | _ => inl AttributeError
  end.

(** [s] occurs in [t]. *)
Definition occurs_in (s t : string) : Prop :=
  ∃ before after, t = before +:+ s +:+ after.

(** ** Further example data *)

(** [int_decimal] agrees with [int] on the strings of decimal digits and
    refuses every other string (Python's [int] also accepts a sign and
    blanks around the number). *)
Fixpoint digits_value (s : string) (acc : Z) : option Z :=
  match s with
  | EmptyString => Some acc
  | String c s =>
    if is_digit c then digits_value s (10 * acc + digit c) else None
  end.

Definition int_decimal (s : string) : option Z :=
  match s with
  | EmptyString => None
  | _ => digits_value s 0
  end.



Definition example_conference_form
    (k : Key) (e : Entity) (displayName : string)
  : Exception + ConferenceForm.t :=
  match e with
  | EConference c =>
    inr (ConferenceForm.mk (Some (Conference.name c)) None [] None None None
           None None (Some k)
           (if decide (displayName = "") then None else Some displayName))
  | _ => inl AttributeError
  end.

(** The sessions of the example, once Ada's entity is gone. *)
Definition st_no_ada : State :=
  set_datastore (delete ada_key (datastore st_sessions)) st_sessions.

(** The empty application, once Alice has a profile. *)
Definition st_alice : State := with_profile st_empty alice (new_profile alice).

(** Bob attends Alice's conference; Alice has no profile, or has one. *)
Definition st_bob_attends : State :=
  (registerForConference (Some bob) pycon_key st_pycon).1.

Definition st_bob_attends_alice : State :=
  (registerForConference (Some bob) pycon_key
     (_createConferenceObject strptime_ymd (Some alice) pycon_form
        st_alice).1).1.

Definition bob_attending : Profile.t :=
  Profile.set_conferenceKeysToAttend [pycon_key] (new_profile bob).

(** * Properties *)

(** ** The state and the caller's profile *)

Lemma set_datastore_id st : set_datastore (datastore st) st = st.
Proof. by destruct st. Qed.

Lemma getProfileFromUser_spec st u p :
  caller_profile st u = Some p ->
  _getProfileFromUser (Some u) st
  = (with_profile st u p, inr (profile_key u, EProfile p)).
Proof.
  unfold caller_profile, _getProfileFromUser, with_profile, bind, ndb_get,
    ndb_put, ret.
  intros H. simpl.
  destruct (datastore st !! profile_key u) as [[]|] eqn:E; simplify_eq/=.
  - by rewrite insert_id, set_datastore_id.
  - done.
Qed.

Lemma with_profile_stored st u p :
  datastore st !! profile_key u = Some (EProfile p) ->
  with_profile st u p = st.
Proof.
  intros H. unfold with_profile. by rewrite insert_id, set_datastore_id.
Qed.

Lemma caller_profile_not_conference st u p k c :
  caller_profile st u = Some p ->
  datastore st !! k = Some (EConference c) ->
  k ≠ profile_key u.
Proof.
  unfold caller_profile. intros Hp Hc ->. by rewrite Hc in Hp.
Qed.

Lemma caller_profile_with_profile st u p :
  caller_profile (with_profile st u p) u = Some p.
Proof.
  unfold caller_profile, with_profile. simpl. by rewrite lookup_insert_eq.
Qed.

(** ** Python's list operations *)

Lemma occurrences_nonneg k l : 0 <= occurrences k l.
Proof. induction l as [|x l IH]; simpl; [lia|]. case_decide; lia. Qed.

Lemma occurrences_app k l1 l2 :
  occurrences k (l1 ++ l2) = occurrences k l1 + occurrences k l2.
Proof. induction l1 as [|x l1 IH]; simpl; [done|]. rewrite IH. lia. Qed.

Lemma occurrences_not_in k l : k ∉ l -> occurrences k l = 0.
Proof.
  induction l as [|x l IH]; simpl; [done|].
  rewrite not_elem_of_cons. intros [? ?]. rewrite IH by done.
  by rewrite decide_False.
Qed.

Lemma occurrences_remove_first k x l :
  x ∈ l ->
  occurrences k (list_remove_first x l)
  = occurrences k l - (if decide (k = x) then 1 else 0).
Proof.
  induction l as [|y l IH]; simpl; [by rewrite elem_of_nil|].
  rewrite elem_of_cons. intros Hin.
  destruct (decide (x = y)) as [->|Hne].
  - repeat case_decide; lia.
  - destruct Hin as [?|Hin]; [done|]. simpl. rewrite IH by done. lia.
Qed.


(** ** Registration *)

Ltac unfold_handlers :=
  unfold registerForConference, unregisterFromConference,
    _conferenceRegistration, transactional, _conferenceRegistration_body,
    _getProfileFromUser, get_conferenceKeysToAttend, get_seatsAvailable,
    bind, ndb_get, ndb_put, ret, raise in *.

(** The body of the registration touches nothing but the datastore. *)
Lemma datastore_only_ret {A} (a : A) : datastore_only (ret a).
Proof. intros st st' r [= <- <-]. by destruct st. Qed.

Lemma datastore_only_raise {A} e : datastore_only (@raise A e).
Proof. intros st st' r [= <- <-]. by destruct st. Qed.

Lemma datastore_only_get k : datastore_only (ndb_get k).
Proof. intros st st' r [= <- <-]. by destruct st. Qed.

Lemma datastore_only_put k e : datastore_only (ndb_put k e).
Proof. intros st st' r [= <- <-]. by destruct st. Qed.

Lemma datastore_only_bind {A B} (m : M A) (f : A -> M B) :
  datastore_only m -> (∀ a, datastore_only (f a)) ->
  datastore_only (bind m f).
Proof.
  intros Hm Hf st st' r. unfold bind.
  destruct (m st) as [st1 [e|a]] eqn:E.
  - intros [= <- <-]. by apply (Hm _ _ _ E).
  - intros E'. rewrite (Hf _ _ _ _ E'). rewrite (Hm _ _ _ E). done.
Qed.

Ltac datastore_only :=
  repeat first
    [ apply datastore_only_ret
    | apply datastore_only_raise
    | apply datastore_only_get
    | apply datastore_only_put
    | apply datastore_only_bind; [|intros ?]
    | match goal with
      | |- datastore_only (match ?x with _ => _ end) => destruct x
      end ].

Lemma getProfileFromUser_datastore_only user :
  datastore_only (_getProfileFromUser user).
Proof. unfold _getProfileFromUser. datastore_only. Qed.

Lemma registration_body_frame user k reg st st' r :
  _conferenceRegistration_body user k reg st = (st', r) ->
  st' = set_datastore (datastore st') st.
Proof.
  revert st st' r.
  change (datastore_only (_conferenceRegistration_body user k reg)).
  unfold _conferenceRegistration_body.
  apply datastore_only_bind; [apply getProfileFromUser_datastore_only|].
  intros [p_key prof].
  unfold get_conferenceKeysToAttend, get_seatsAvailable.
  datastore_only.
Qed.

Lemma registration_rollback user k reg st st' e :
  _conferenceRegistration user k reg st = (st', inl e) -> st' = st.
Proof.
  unfold _conferenceRegistration, transactional.
  destruct (_conferenceRegistration_body user k reg st) as [st1 [e1|b]] eqn:E;
    intros; simplify_eq.
  rewrite (registration_body_frame _ _ _ _ _ _ E). by destruct st.
Qed.

Lemma register_ok st u wsck c p :
  datastore st !! wsck = Some (EConference c) ->
  caller_profile st u = Some p ->
  wsck ∉ Profile.conferenceKeysToAttend p ->
  0 < Conference.seatsAvailable c ->
  registerForConference (Some u) wsck st
  = (set_datastore
       (<[wsck := EConference
                    (Conference.set_seatsAvailable
                       (Conference.seatsAvailable c - 1) c)]>
          (<[profile_key u :=
               EProfile
                 (Profile.set_conferenceKeysToAttend
                    (Profile.conferenceKeysToAttend p ++ [wsck]) p)]>
             (datastore st))) st,
     inr true).
Proof.
  intros Hc Hp Hin Hs.
  pose proof (caller_profile_not_conference _ _ _ _ _ Hp Hc) as Hne.
  unfold registerForConference, _conferenceRegistration, transactional,
    _conferenceRegistration_body, bind.
  rewrite (getProfileFromUser_spec _ _ _ Hp).
  unfold ndb_get, with_profile. simpl.
  rewrite lookup_insert_ne, Hc by done. simpl.
  rewrite bool_decide_eq_false_2 by done.
  unfold ret, ndb_put.
  destruct (Z.leb_spec (Conference.seatsAvailable c) 0); [lia|].
  simpl. by rewrite insert_insert_eq.
Qed.


Lemma unregister_ok st u wsck c p :
  datastore st !! wsck = Some (EConference c) ->
  caller_profile st u = Some p ->
  wsck ∈ Profile.conferenceKeysToAttend p ->
  unregisterFromConference (Some u) wsck st
  = (set_datastore
       (<[wsck := EConference
                    (Conference.set_seatsAvailable
                       (Conference.seatsAvailable c + 1) c)]>
          (<[profile_key u :=
               EProfile
                 (Profile.set_conferenceKeysToAttend
                    (list_remove_first wsck (Profile.conferenceKeysToAttend p))
                    p)]>
             (datastore st))) st,
     inr true).
Proof.
  intros Hc Hp Hin.
  pose proof (caller_profile_not_conference _ _ _ _ _ Hp Hc) as Hne.
  unfold unregisterFromConference, _conferenceRegistration, transactional,
    _conferenceRegistration_body, bind.
  rewrite (getProfileFromUser_spec _ _ _ Hp).
  unfold ndb_get, with_profile. simpl.
  rewrite lookup_insert_ne, Hc by done. simpl.
  rewrite bool_decide_eq_true_2 by done.
  unfold ret, ndb_put. simpl. by rewrite insert_insert_eq.
Qed.

Lemma unregister_noop st u wsck p :
  is_Some (datastore (with_profile st u p) !! wsck) ->
  caller_profile st u = Some p ->
  wsck ∉ Profile.conferenceKeysToAttend p ->
  unregisterFromConference (Some u) wsck st
  = (with_profile st u p, inr false).
Proof.
  intros [e He] Hp Hin.
  unfold unregisterFromConference, _conferenceRegistration, transactional,
    _conferenceRegistration_body, bind.
  rewrite (getProfileFromUser_spec _ _ _ Hp).
  unfold ndb_get, with_profile in *. simpl in *. rewrite He. simpl.
  rewrite bool_decide_eq_false_2 by done.
  unfold ret, ndb_put. simpl.
  rewrite insert_insert_eq. by rewrite (insert_id _ wsck e).
Qed.

(** What a registration request that is answered has done. *)
Lemma registration_answered user k reg st st' b :
  _conferenceRegistration user k reg st = (st', inr b) ->
  ∃ u p,
    user = Some u ∧ caller_profile st u = Some p ∧
    ((b = false ∧ reg = false ∧ (k ∉ Profile.conferenceKeysToAttend p)
      ∧ st' = with_profile st u p)
     ∨ (b = true ∧
        ∃ c, datastore st !! k = Some (EConference c) ∧
             (if reg
              then (k ∉ Profile.conferenceKeysToAttend p)
                   ∧ 0 < Conference.seatsAvailable c
              else k ∈ Profile.conferenceKeysToAttend p))).
Proof.
  intros H.
  destruct user as [u|]; [|by unfold_handlers].
  destruct (caller_profile st u) as [p|] eqn:Hp.
  2:{ unfold caller_profile in Hp. unfold_handlers. simpl in H.
      destruct (datastore st !! profile_key u) as [[]|] eqn:E; simplify_eq/=;
        destruct (datastore st !! k) as [?|]; simplify_eq/=;
        destruct reg; simplify_eq/=. }
  exists u, p. split; [done|]. split; [done|].
  destruct (datastore (with_profile st u p) !! k) as [e|] eqn:He.
  2:{ unfold with_profile in He. simpl in He.
      unfold _conferenceRegistration, transactional,
        _conferenceRegistration_body, bind in H.
      rewrite (getProfileFromUser_spec _ _ _ Hp) in H.
      unfold ndb_get, with_profile in H. simpl in H.
      rewrite He in H. by unfold raise in H. }
  destruct (decide (k ∈ Profile.conferenceKeysToAttend p)) as [Hin|Hin],
    reg.
  4:{ left. pose proof (unregister_noop st u k p) as E.
      unfold unregisterFromConference in E.
      rewrite E in H by eauto. by simplify_eq. }
  all: unfold with_profile in He; simpl in He;
    unfold _conferenceRegistration, transactional,
      _conferenceRegistration_body, bind in H;
    rewrite (getProfileFromUser_spec _ _ _ Hp) in H;
    unfold ndb_get, with_profile in H; simpl in H;
    rewrite He in H; simpl in H.
  - rewrite bool_decide_eq_true_2 in H by done. by unfold raise in H.
  - right. rewrite bool_decide_eq_true_2 in H by done.
    destruct e as [| c | |]; simplify_eq/=.
    split; [done|]. exists c. split; [|done].
    apply lookup_insert_Some in He as [[? ?]|[? ?]]; [done|done].
  - right. rewrite bool_decide_eq_false_2 in H by done.
    destruct e as [| c | |]; simplify_eq/=.
    destruct (Z.leb_spec (Conference.seatsAvailable c) 0); simplify_eq/=.
    split; [done|]. exists c. split; [|done].
    apply lookup_insert_Some in He as [[? ?]|[? ?]]; [done|done].
Qed.

Lemma attendance_insert (w k : Key) (e : Entity) (d : gmap Key Entity) :
  attendance w (<[k := e]> d)
  = attendance w d - from_option (attending w) 0 (d !! k) + attending w e.
Proof.
  unfold attendance. rewrite <-insert_delete_eq.
  rewrite map_fold_insert_L; [|intros; lia|apply lookup_delete_eq].
  destruct (d !! k) as [x|] eqn:E; simpl.
  - rewrite (map_fold_delete_L _ _ k x d); [lia|intros; lia|done].
  - rewrite delete_id by done. lia.
Qed.

Lemma attendance_nonneg (w : Key) (d : gmap Key Entity) : 0 <= attendance w d.
Proof.
  unfold attendance.
  apply (map_fold_weak_ind (fun r _ => 0 <= r)); [lia|].
  intros k e m r _ Hr. destruct e; simpl; try lia.
  pose proof (occurrences_nonneg w (Profile.conferenceKeysToAttend p)). lia.
Qed.

Lemma attendance_nobody (w : Key) (d : gmap Key Entity) :
  (∀ k p, d !! k = Some (EProfile p) ->
          w ∉ Profile.conferenceKeysToAttend p) ->
  attendance w d = 0.
Proof.
  unfold attendance.
  apply (map_fold_weak_ind
           (fun r (m : gmap Key Entity) =>
              (∀ k p, m !! k = Some (EProfile p) ->
                      w ∉ Profile.conferenceKeysToAttend p) -> r = 0));
    [done|].
  intros k e m r Hk IH Hall.
  rewrite IH.
  - destruct e as [p| | |]; simpl; try done.
    rewrite occurrences_not_in; [done|].
    apply (Hall k). apply lookup_insert_eq.
  - intros k' p' Hk'. apply (Hall k').
    rewrite lookup_insert_ne; [done|]. intros ->. by rewrite Hk in Hk'.
Qed.

Lemma caller_profile_attending w st u p :
  caller_profile st u = Some p ->
  from_option (attending w) 0 (datastore st !! profile_key u)
  = occurrences w (Profile.conferenceKeysToAttend p).
Proof.
  unfold caller_profile.
  destruct (datastore st !! profile_key u) as [[]|]; intros; by simplify_eq/=.
Qed.

Lemma serve_seats_inv w cap s call st st' r :
  seats_inv w cap s (datastore st) ->
  serve call st = (st', r) ->
  seats_inv w cap
    (s - (if is_registration w call r then 1 else 0)
       + (if is_unregistration w call r then 1 else 0))
    (datastore st').
Proof.
  intros (c0 & Hw & Hmax & Hseats & Hpos & Hsum) H. unfold seats_inv.
  assert (∃ user k reg,
             _conferenceRegistration user k reg st = (st', r)
             ∧ is_registration w call r
               = match r with
                 | inr true => reg && bool_decide (k = w) | _ => false end
             ∧ is_unregistration w call r
               = match r with
                 | inr true => negb reg && bool_decide (k = w) | _ => false
                 end)
    as (user & k & reg & Hrun & -> & ->).
  { destruct call as [user k|user k]; simpl in H.
    - exists user, k, true. split; [done|]. by destruct r as [|[]].
    - exists user, k, false. split; [done|]. by destruct r as [|[]]. }
  clear H.
  destruct r as [e|b].
  { apply registration_rollback in Hrun as ->.
    exists c0. repeat split; try done; lia. }
  destruct (registration_answered _ _ _ _ _ _ Hrun)
    as (u & p & -> & Hp & [(-> & -> & Hin & ->)|(-> & c & Hk & Hreg)]).
  - (* an unregistration that found nothing to do *)
    pose proof (caller_profile_not_conference _ _ _ _ _ Hp Hw) as Hne.
    exists c0. unfold with_profile. simpl.
    rewrite lookup_insert_ne by done.
    rewrite attendance_insert, (caller_profile_attending _ _ _ _ Hp). simpl.
    repeat split; try done; lia.
  - pose proof (caller_profile_not_conference _ _ _ _ _ Hp Hw) as Hne.
    pose proof (caller_profile_not_conference _ _ _ _ _ Hp Hk) as Hnek.
    destruct reg; simpl.
    + destruct Hreg as [Hin Hfree].
      pose proof (register_ok _ _ _ _ _ Hk Hp Hin Hfree) as E.
      unfold registerForConference in E. rewrite E in Hrun.
      injection Hrun as <-. simpl.
      rewrite !attendance_insert, (caller_profile_attending _ _ _ _ Hp).
      rewrite (lookup_insert_ne _ (profile_key u) k), Hk by done. simpl.
      rewrite occurrences_app. simpl.
      case_bool_decide as Hkw.
      * subst k. rewrite lookup_insert_eq. rewrite decide_True by done.
        simplify_eq. eexists. repeat split; simpl; lia.
      * rewrite !lookup_insert_ne by done. rewrite decide_False by done.
        exists c0. repeat split; try done; lia.
    + pose proof (unregister_ok _ _ _ _ _ Hk Hp Hreg) as E.
      unfold unregisterFromConference in E. rewrite E in Hrun.
      injection Hrun as <-. simpl.
      rewrite !attendance_insert, (caller_profile_attending _ _ _ _ Hp).
      rewrite (lookup_insert_ne _ (profile_key u) k), Hk by done. simpl.
      rewrite occurrences_remove_first by done.
      case_bool_decide as Hkw.
      * subst k. rewrite lookup_insert_eq. rewrite decide_True by done.
        simplify_eq. eexists. repeat split; simpl; lia.
      * rewrite !lookup_insert_ne by done. rewrite decide_False by done.
        exists c0. repeat split; try done; lia.
Qed.

Lemma serve_all_seats_inv w cap cs : ∀ s st st' rs,
  seats_inv w cap s (datastore st) ->
  serve_all cs st = (st', rs) ->
  seats_inv w cap
    (s - count_calls (is_registration w) cs rs
       + count_calls (is_unregistration w) cs rs)
    (datastore st').
Proof.
  induction cs as [|call cs IH]; intros s st st' rs Hinv Hrun; simpl in *.
  - simplify_eq. simpl. by replace (s - 0 + 0) with s by lia.
  - destruct (serve call st) as [st1 r] eqn:E1.
    destruct (serve_all cs st1) as [st2 rs2] eqn:E2.
    simplify_eq. simpl.
    pose proof (serve_seats_inv _ _ _ _ _ _ _ Hinv E1) as Hinv1.
    pose proof (IH _ _ _ _ Hinv1 E2) as Hinv2.
    match goal with
    | H : seats_inv _ _ ?a _ |- seats_inv _ _ ?b _ =>
      replace b with a by lia
    end.
    done.
Qed.

(** ** Date fields *)

Lemma convert_date_ok strptime_date field st :
  date_ok strptime_date field ->
  ∃ v, convert_date strptime_date field st = (st, inr v).
Proof.
  unfold date_ok, convert_date. destruct field as [s|]; [|by eexists].
  intros Hok. case_decide; [by eexists|].
  destruct Hok as [?|[d ->]]; [done|]. by eexists.
Qed.

Lemma convert_date_state strptime_date field st st' r :
  convert_date strptime_date field st = (st', r) -> st' = st.
Proof.
  unfold convert_date, ret, raise. intros H.
  repeat case_match; by simplify_eq.
Qed.

(** ** A conference that has just been created *)


(** A conference created with a positive [maxAttendees] starts with as many
    free seats, under a key that no profile holds if none held it before. *)
Lemma created_conference_start
    (strptime_date : string -> option Date) (u : User)
    (request : ConferenceForm.t) (cap : Z) (st st' : State)
    (form : ConferenceForm.t) :
  let wsck := ndb_Key "Conference" (inr (next_id st)) (profile_key u) in
  _createConferenceObject strptime_date (Some u) request st
  = (st', inr form) ->
  ConferenceForm.maxAttendees request = Some cap ->
  0 < cap ->
  (∀ k p, datastore st !! k = Some (EProfile p) ->
          wsck ∉ Profile.conferenceKeysToAttend p) ->
  ∃ c, datastore st' !! wsck = Some (EConference c)
       ∧ Conference.maxAttendees c = cap
       ∧ Conference.seatsAvailable c = cap
       ∧ (∀ k p, datastore st' !! k = Some (EProfile p) ->
                 wsck ∉ Profile.conferenceKeysToAttend p).
Proof.
  intros wsck Hrun Hmax Hcap Hnobody.
  unfold _createConferenceObject in Hrun. rewrite Hmax in Hrun.
  destruct (ConferenceForm.name request) as [name|]; [|done].
  case_decide; [done|]. unfold bind in Hrun.
  destruct (convert_date _ (ConferenceForm.startDate request) st)
    as [st1 [e1|v1]] eqn:E1; [done|].
  apply convert_date_state in E1 as ->.
  destruct (convert_date _ (ConferenceForm.endDate request) st)
    as [st2 [e2|v2]] eqn:E2; [done|].
  apply convert_date_state in E2 as ->.
  simpl in Hrun. injection Hrun as <- _. simpl.
  destruct (Z.ltb_spec 0 cap); [|lia].
  eexists. split; [apply lookup_insert_eq|]. simpl.
  split; [done|]. split; [done|].
  intros k p Hk. apply lookup_insert_Some in Hk as [[_ [=]]|[_ Hk]].
  by apply (Hnobody k).
Qed.

(** ** Seat accounting *)

(** C1. A conference [wsck] starts with [seatsAvailable = maxAttendees = cap]
    and nobody attending. Whatever registration and unregistration requests
    are then served (by any callers, for any conferences, answered or
    refused), the free seats of [wsck] are [cap - N + M], where [N] and [M]
    count the registrations and unregistrations for [wsck] that were
    answered with [True], and they stay between [0] and [cap]; the same
    bounds hold after every prefix of the requests. *)
Theorem seat_accounting
    (st0 st : State) (wsck : Key) (c : Conference.t) (cap : Z)
    (cs : list Call) (rs : list (Exception + bool)) :
  datastore st0 !! wsck = Some (EConference c) ->
  Conference.maxAttendees c = cap ->
  Conference.seatsAvailable c = cap ->
  0 <= cap ->
  (∀ k p, datastore st0 !! k = Some (EProfile p) ->
          wsck ∉ Profile.conferenceKeysToAttend p) ->
  serve_all cs st0 = (st, rs) ->
  (∃ c',
      datastore st !! wsck = Some (EConference c')
      ∧ Conference.maxAttendees c' = cap
      ∧ Conference.seatsAvailable c'
        = cap - count_calls (is_registration wsck) cs rs
              + count_calls (is_unregistration wsck) cs rs
      ∧ 0 <= Conference.seatsAvailable c' <= cap)
  ∧ (∀ n, ∃ c',
        datastore (serve_all (take n cs) st0).1 !! wsck
        = Some (EConference c')
        ∧ 0 <= Conference.seatsAvailable c' <= Conference.maxAttendees c').
Proof.
  intros Hc Hmax Hseats Hcap Hnobody Hrun.
  assert (seats_inv wsck cap cap (datastore st0)) as Hinv.
  { exists c. rewrite (attendance_nobody _ _ Hnobody).
    repeat split; try done; lia. }
  split.
  - destruct (serve_all_seats_inv _ _ _ _ _ _ _ Hinv Hrun)
      as (c' & Hc' & Hmax' & Hseats' & Hpos & Hsum).
    pose proof (attendance_nonneg wsck (datastore st)).
    exists c'. repeat split; try done; lia.
  - intros n.
    destruct (serve_all (take n cs) st0) as [stn rsn] eqn:En.
    destruct (serve_all_seats_inv _ _ _ _ _ _ _ Hinv En)
      as (c' & Hc' & Hmax' & Hseats' & Hpos & Hsum).
    pose proof (attendance_nonneg wsck (datastore stn)).
    exists c'. simpl. repeat split; try done; lia.
Qed.

Lemma seat_accounting_witness :
  ∃ c',
    datastore (serve_all example_calls st_pycon).1 !! pycon_key
    = Some (EConference c')
    ∧ Conference.seatsAvailable c' = 2 - 2 + 1.
Proof.
  destruct (seat_accounting st_pycon (serve_all example_calls st_pycon).1
              pycon_key pycon 2 example_calls
              (serve_all example_calls st_pycon).2)
    as [(c' & Hc' & _ & Hseats & _) _].
  - reflexivity.
  - reflexivity.
  - reflexivity.
  - lia.
  - intros k p H. unfold st_pycon in H. cbn [datastore] in H.
    apply lookup_singleton_Some in H as [_ H]. discriminate H.
  - by destruct (serve_all example_calls st_pycon).
  - exists c'. split; [exact Hc'|]. rewrite Hseats. vm_compute. reflexivity.
Defined.

(** ** Registering *)



(** ** All or nothing *)

(** Before it raises, the body of [_conferenceRegistration] has written at
    most the profile that [_getProfileFromUser] creates for a new caller;
    this is the write that the transaction takes back. *)
Lemma registration_body_error_writes user k reg st st' e :
  _conferenceRegistration_body user k reg st = (st', inl e) ->
  st' = st
  ∨ ∃ u, user = Some u
         ∧ datastore st !! profile_key u = None
         ∧ st' = with_profile st u (new_profile u).
Proof.
  intros H. destruct user as [u|].
  2:{ left. unfold_handlers. by simplify_eq. }
  unfold _conferenceRegistration_body, bind in H.
  destruct (_getProfileFromUser (Some u) st) as [st1 [e1|[pk prof]]] eqn:E.
  { unfold_handlers. simpl in E.
    destruct (datastore st !! profile_key u); simplify_eq/=. }
  assert (st' = st1) as ->.
  { unfold_handlers. simpl in *.
    repeat (simplify_eq/=; try done;
            match goal with
            | H : context [match ?x with _ => _ end] |- _ => destruct x eqn:?
            | H : context [if ?x then _ else _] |- _ => destruct x eqn:?
            end). }
  clear H. unfold _getProfileFromUser, bind, ndb_get, ndb_put, ret in E.
  simpl in E.
  destruct (datastore st !! profile_key u) eqn:Hp; simplify_eq/=.
  - by left.
  - right. by exists u.
Qed.

(** C3. A registration or unregistration that ends with an exception leaves
    the state as it was: neither the profile nor the conference is written.
    Whatever the outcome, the free seats of the conference change by exactly
    the opposite of the change of the caller's membership. Even inside the
    transaction, a body that raises has changed neither of the two. *)
Theorem registration_all_or_nothing
    (st st' : State) (user : option User) (wsck : Key) (reg : bool)
    (r : Exception + bool) :
  _conferenceRegistration user wsck reg st = (st', r) ->
  (∀ e, r = inl e -> st' = st)
  ∧ seats_at wsck st' - seats_at wsck st
    = attending_of user wsck st - attending_of user wsck st'
  ∧ (∀ st1 e,
        _conferenceRegistration_body user wsck reg st = (st1, inl e) ->
        seats_at wsck st1 = seats_at wsck st
        ∧ attending_of user wsck st1 = attending_of user wsck st).
Proof.
  intros Hrun.
  assert (∀ st1 e,
             _conferenceRegistration_body user wsck reg st = (st1, inl e) ->
             seats_at wsck st1 = seats_at wsck st
             ∧ attending_of user wsck st1 = attending_of user wsck st)
    as Hbody.
  { intros st1 e Hraise.
    destruct (registration_body_error_writes _ _ _ _ _ _ Hraise)
      as [->|(u & -> & Hnew & ->)]; [done|].
    unfold seats_at, attending_of, with_profile. simpl.
    rewrite lookup_insert_eq, Hnew. simpl. split; [|done].
    destruct (decide (wsck = profile_key u)) as [->|Hne].
    - by rewrite lookup_insert_eq, Hnew.
    - by rewrite lookup_insert_ne. }
  destruct r as [e|b].
  { apply registration_rollback in Hrun as ->.
    split; [done|]. split; [lia|done]. }
  split; [done|]. split; [|done].
  destruct (registration_answered _ _ _ _ _ _ Hrun)
    as (u & p & -> & Hp & [(-> & -> & Hin & ->)|(-> & c & Hk & Hreg)]).
  - (* nothing to unregister *)
    unfold seats_at, attending_of, with_profile. simpl.
    rewrite (caller_profile_attending _ _ _ _ Hp), lookup_insert_eq. simpl.
    destruct (decide (wsck = profile_key u)) as [->|Hne].
    + rewrite lookup_insert_eq. unfold caller_profile in Hp.
      destruct (datastore st !! profile_key u) as [[]|]; simplify_eq/=; lia.
    + rewrite lookup_insert_ne by done. lia.
  - pose proof (caller_profile_not_conference _ _ _ _ _ Hp Hk) as Hne.
    unfold seats_at, attending_of.
    rewrite (caller_profile_attending _ _ _ _ Hp), Hk.
    destruct reg.
    + destruct Hreg as [Hin Hfree].
      pose proof (register_ok _ _ _ _ _ Hk Hp Hin Hfree) as E.
      unfold registerForConference in E. rewrite E in Hrun.
      injection Hrun as <-. simpl.
      rewrite lookup_insert_eq, lookup_insert_ne by done.
      rewrite lookup_insert_eq. simpl.
      rewrite occurrences_app. simpl. rewrite decide_True by done. lia.
    + pose proof (unregister_ok _ _ _ _ _ Hk Hp Hreg) as E.
      unfold unregisterFromConference in E. rewrite E in Hrun.
      injection Hrun as <-. simpl.
      rewrite lookup_insert_eq, lookup_insert_ne by done.
      rewrite lookup_insert_eq. simpl.
      rewrite occurrences_remove_first by done.
      rewrite decide_True by done. lia.
Qed.

Lemma registration_all_or_nothing_witness :
  (∀ e, @inl Exception bool ConflictException = inl e ->
        (registerForConference (Some bob) pycon_key st_pycon_full).1
        = st_pycon_full)
  ∧ seats_at pycon_key
      (registerForConference (Some bob) pycon_key st_pycon_full).1
    - seats_at pycon_key st_pycon_full
    = attending_of (Some bob) pycon_key st_pycon_full
      - attending_of (Some bob) pycon_key
          (registerForConference (Some bob) pycon_key st_pycon_full).1.
Proof.
  destruct (registration_all_or_nothing st_pycon_full
              (registerForConference (Some bob) pycon_key st_pycon_full).1
              (Some bob) pycon_key true (inl ConflictException))
    as (Hraised & Hbalanced & _).
  - assert ((registerForConference (Some bob) pycon_key st_pycon_full).2
            = inl ConflictException) as Hconflict
      by (vm_compute; reflexivity).
    unfold registerForConference in *.
    destruct (_conferenceRegistration (Some bob) pycon_key true
                st_pycon_full) as [st' r].
    simpl in *. rewrite Hconflict. reflexivity.
  - split; [exact Hraised|exact Hbalanced].
Defined.

(** ** Unregistering *)



(** ** Query filters *)

Lemma FIELDS_lookup k v :
  FIELDS !! k = Some v
  <-> (k, v) ∈ [("CITY", "city"); ("TOPIC", "topics"); ("MONTH", "month");
               ("MAX_ATTENDEES", "maxAttendees")].
Proof.
  unfold FIELDS. symmetry. apply elem_of_list_to_map.
  apply (bool_decide_unpack _). vm_compute. exact I.
Qed.

Lemma OPERATORS_lookup k v :
  OPERATORS !! k = Some v
  <-> (k, v) ∈ [("EQ", "="); ("GT", ">"); ("GTEQ", ">="); ("LT", "<");
               ("LTEQ", "<="); ("NE", "!=")].
Proof.
  unfold OPERATORS. symmetry. apply elem_of_list_to_map.
  apply (bool_decide_unpack _). vm_compute. exact I.
Qed.

Ltac table_cases H :=
  set_unfold in H; repeat destruct H as [H|H]; simplify_eq/=.

Lemma FIELDS_nonempty k v : FIELDS !! k = Some v -> v ≠ "".
Proof. rewrite FIELDS_lookup. intros H. table_cases H; done. Qed.

Lemma FIELDS_inj k1 k2 v :
  FIELDS !! k1 = Some v -> FIELDS !! k2 = Some v -> k1 = k2.
Proof.
  rewrite !FIELDS_lookup. intros H1 H2.
  table_cases H1; table_cases H2; done.
Qed.

Lemma OPERATORS_inequality k sym :
  OPERATORS !! k = Some sym ->
  sym ≠ "=" <-> sym ∈ [">"; ">="; "<"; "<="; "!="].
Proof.
  rewrite OPERATORS_lookup. intros H.
  table_cases H; split; intros Hsym;
    first
      [ done
      | by destruct Hsym
      | solve [repeat first [by left | right]]
      | by (set_unfold in Hsym; repeat destruct Hsym as [Hsym|Hsym]) ].
Qed.

Lemma field_of_inj f1 f2 x :
  field_of f1 = Some x -> field_of f2 = Some x ->
  ConferenceQueryForm.field f1 = ConferenceQueryForm.field f2.
Proof.
  unfold field_of.
  destruct (ConferenceQueryForm.field f1) as [k1|],
           (ConferenceQueryForm.field f2) as [k2|]; simpl; try done.
  intros H1 H2. f_equal. by apply (FIELDS_inj _ _ x).
Qed.

Lemma inequality_filter_operator f sym :
  operator_of f = Some sym -> inequality_filter f <-> sym ≠ "=".
Proof.
  intros Hop. unfold inequality_filter. rewrite Hop.
  assert (∃ k, OPERATORS !! k = Some sym) as [k Hk].
  { unfold operator_of in Hop.
    destruct (ConferenceQueryForm.operator f) as [k|]; [|done]. by exists k. }
  rewrite (OPERATORS_inequality _ _ Hk). split.
  - by intros (? & [= <-] & ?).
  - intros ?. by exists sym.
Qed.

Lemma loop_only_bad_request filters : ∀ iq acc e,
  _formatFilters_loop filters iq acc = inl e -> e = BadRequestException.
Proof.
  induction filters as [|f filters IH]; intros iq acc e; simpl; [done|].
  repeat case_match; try (by intros [= <-]); apply IH.
Qed.

Lemma loop_rejects filters : ∀ iq acc,
  (∀ x, iq = Some x -> x ≠ "") ->
  _formatFilters_loop filters iq acc = inl BadRequestException
  <-> rejected filters ∨ clash iq filters.
Proof.
  induction filters as [|f filters IH]; intros iq acc Hiq.
  { simpl. split; [done|].
    intros [[(f & Hf & _)|(f & _ & Hf & _)]|(_ & f & _ & Hf & _)];
      by apply elem_of_nil in Hf. }
  cbn [_formatFilters_loop].
  fold (field_of f). fold (operator_of f).
  destruct (field_of f) as [fld|] eqn:Hfld.
  2:{ split; [|done]. intros _. left. left. exists f.
      split; [by left|]. intros [[? ?] _]. congruence. }
  destruct (operator_of f) as [sym|] eqn:Hop.
  2:{ split; [|done]. intros _. left. left. exists f.
      split; [by left|]. intros [_ [? ?]]. congruence. }
  assert (valid_filter f) as Hvalid by (split; eauto).
  pose proof (inequality_filter_operator _ _ Hop) as Hineq.
  assert (fld ≠ "") as Hne.
  { unfold field_of in Hfld.
    destruct (ConferenceQueryForm.field f) as [k|]; [|done].
    by apply (FIELDS_nonempty k). }
  case_bool_decide as Hsym; simpl.
  - (* an equality filter *)
    rewrite IH by done. unfold rejected, clash. split.
    + intros [[(g & Hg & Hbad)|(g1 & g2 & H1 & H2 & ?)]
             |(x & g & ? & Hg & ?)].
      * left. left. exists g. split; [by right|done].
      * left. right. exists g1, g2.
        split; [by right|]. split; [by right|done].
      * right. exists x, g. split; [done|]. split; [by right|done].
    + intros [[(g & Hg & Hbad)|(g1 & g2 & H1 & H2 & I1 & I2 & Hd)]
             |(x & g & ? & Hg & ? & Ig & ?)].
      * apply elem_of_cons in Hg as [->|Hg]; [done|].
        left. left. by exists g.
      * apply elem_of_cons in H1 as [->|H1]; [apply Hineq in I1; done|].
        apply elem_of_cons in H2 as [->|H2]; [apply Hineq in I2; done|].
        left. right. by exists g1, g2.
      * apply elem_of_cons in Hg as [->|Hg]; [apply Hineq in Ig; done|].
        right. by exists x, g.
  - (* an inequality filter *)
    assert (inequality_filter f) as If by by apply Hineq.
    destruct (truthy iq && negb (bool_decide (iq = Some fld))) eqn:Hclash.
    + split; [|done]. intros _. right.
      apply andb_true_iff in Hclash as [Ht Hd].
      destruct iq as [x|]; [|done].
      exists x, f. split; [done|]. split; [by left|].
      split; [done|]. split; [done|].
      rewrite Hfld. apply negb_true_iff, bool_decide_eq_false in Hd.
      congruence.
    + assert (iq = None ∨ iq = Some fld) as Hiq'.
      { destruct iq as [x|]; [|by left]. right.
        apply andb_false_iff in Hclash as [Ht|Hd].
        - simpl in Ht. apply negb_false_iff, bool_decide_eq_true in Ht.
          by destruct (Hiq x).
        - by apply negb_false_iff, bool_decide_eq_true in Hd. }
      rewrite IH by (by intros ? [= <-]).
      unfold rejected, clash. split.
      * intros [[(g & Hg & Hbad)|(g1 & g2 & H1 & H2 & ?)]
               |(x & g & [= <-] & Hg & Vg & Ig & Hd)].
        -- left. left. exists g. split; [by right|done].
        -- left. right. exists g1, g2.
           split; [by right|]. split; [by right|done].
        -- left. right. exists f, g.
           split; [by left|]. split; [by right|].
           split; [done|]. split; [done|].
           intros Heq. apply Hd. unfold field_of in *. by rewrite <-Heq.
      * intros [[(g & Hg & Hbad)|(g1 & g2 & H1 & H2 & I1 & I2 & Hd)]
               |(x & g & Hx & Hg & Vg & Ig & Hd)].
        -- apply elem_of_cons in Hg as [->|Hg]; [done|].
           left. left. by exists g.
        -- apply elem_of_cons in H1 as [->|H1];
             apply elem_of_cons in H2 as [->|H2].
           ++ done.
           ++ destruct (decide (valid_filter g2)) as [V2|V2].
              ** right. exists fld, g2.
                 split; [done|]. split; [done|].
                 split; [done|]. split; [done|].
                 intros E. apply Hd. by apply (field_of_inj _ _ fld).
              ** left. left. by exists g2.
           ++ destruct (decide (valid_filter g1)) as [V1|V1].
              ** right. exists fld, g1.
                 split; [done|]. split; [done|].
                 split; [done|]. split; [done|].
                 intros E. apply Hd. symmetry.
                 by apply (field_of_inj _ _ fld).
              ** left. left. by exists g1.
           ++ left. right. by exists g1, g2.
        -- destruct Hiq' as [-> | ->]; [done|]. simplify_eq.
           apply elem_of_cons in Hg as [->|Hg]; [done|].
           right. by eexists _, g.
Qed.

Lemma loop_result filters : ∀ iq acc iq' fs,
  _formatFilters_loop filters iq acc = inr (iq', fs) ->
  ∃ gs, fs = acc ++ gs
        ∧ Forall2 formats filters gs
        ∧ (iq' = iq
           ∨ ∃ f, f ∈ filters ∧ inequality_filter f ∧ field_of f = iq').
Proof.
  induction filters as [|f filters IH]; intros iq acc iq' fs.
  { simpl. intros [= <- <-]. exists []. rewrite app_nil_r.
    split; [done|]. split; [constructor|by left]. }
  cbn [_formatFilters_loop].
  fold (field_of f). fold (operator_of f).
  destruct (field_of f) as [fld|] eqn:Hfld; [|done].
  destruct (operator_of f) as [sym|] eqn:Hop; [|done].
  pose proof (inequality_filter_operator _ _ Hop) as Hineq.
  assert (formats f (mkFilter fld sym (ConferenceQueryForm.value f)))
    as Hformats by done.
  case_bool_decide as Hsym; simpl.
  - intros H. destruct (IH _ _ _ _ H) as (gs & -> & Hgs & Hiq).
    eexists (_ :: gs). rewrite <-app_assoc. split; [done|].
    split; [by constructor|].
    destruct Hiq as [->|(g & Hg & Ig & Fg)]; [by left|].
    right. exists g. split; [by right|done].
  - destruct (truthy iq && negb (bool_decide (iq = Some fld))); [done|].
    intros H. destruct (IH _ _ _ _ H) as (gs & -> & Hgs & Hiq).
    eexists (_ :: gs). rewrite <-app_assoc. split; [done|].
    split; [by constructor|]. right.
    destruct Hiq as [->|(g & Hg & Ig & Fg)].
    + exists f. split; [by left|]. split; [by apply Hineq|done].
    + exists g. split; [by right|done].
Qed.

(** C5. [_formatFilters] raises nothing but [BadRequestException], and
    raises it exactly when some filter has a field or an operator outside
    the tables, or two filters with an inequality operator ([>], [>=], [<],
    [<=], [!=]) name different fields. When every filter is inside the tables
    and all inequality filters name one field -- with any number of equality
    filters -- the list is accepted: the filters come back formatted, in
    order, with the inequality field (if any). *)
Theorem format_filters_spec (filters : list ConferenceQueryForm.t) :
  (∀ e, _formatFilters filters = inl e -> e = BadRequestException)
  ∧ (_formatFilters filters = inl BadRequestException
     <-> (∃ f, f ∈ filters ∧ ¬ valid_filter f)
        ∨ (∃ f1 f2,
              f1 ∈ filters ∧ f2 ∈ filters
              ∧ inequality_filter f1 ∧ inequality_filter f2
              ∧ ConferenceQueryForm.field f1 ≠ ConferenceQueryForm.field f2))
  ∧ ((∀ f, f ∈ filters -> valid_filter f) ->
     (∀ f1 f2,
         f1 ∈ filters -> f2 ∈ filters ->
         inequality_filter f1 -> inequality_filter f2 ->
         ConferenceQueryForm.field f1 = ConferenceQueryForm.field f2) ->
     ∃ inequality_field formatted_filters,
       _formatFilters filters = inr (inequality_field, formatted_filters)
       ∧ Forall2 formats filters formatted_filters
       ∧ (inequality_field = None
          ∨ ∃ f, f ∈ filters ∧ inequality_filter f
                 ∧ field_of f = inequality_field)).
Proof.
  assert (_formatFilters filters = inl BadRequestException
          <-> rejected filters) as Hrej.
  { unfold _formatFilters. rewrite loop_rejects by done.
    split; [|by left]. intros [?|(x & ? & ? & _)]; done. }
  split; [apply loop_only_bad_request|]. split; [done|].
  intros Hvalid Hone.
  destruct (_formatFilters filters) as [e|[iq fs]] eqn:E.
  - rewrite (loop_only_bad_request _ _ _ _ E) in Hrej.
    destruct Hrej as [Hrej _].
    destruct (Hrej eq_refl)
      as [(f & Hf & Hbad)|(f1 & f2 & H1 & H2 & I1 & I2 & Hd)].
    + destruct Hbad. by apply Hvalid.
    + destruct Hd. by apply Hone.
  - destruct (loop_result _ _ _ _ _ E) as (gs & -> & Hgs & Hiq).
    exists iq, gs. split; [done|]. split; [done|].
    destruct Hiq as [->|?]; [by left|by right].
Qed.

Lemma format_filters_spec_witness :
  ∃ inequality_field formatted_filters,
    _formatFilters [f_city; f_month_gt; f_month_lt]
    = inr (inequality_field, formatted_filters)
    ∧ Forall2 formats [f_city; f_month_gt; f_month_lt] formatted_filters
    ∧ (inequality_field = None
       ∨ ∃ f, f ∈ [f_city; f_month_gt; f_month_lt] ∧ inequality_filter f
              ∧ field_of f = inequality_field).
Proof.
  destruct (format_filters_spec [f_city; f_month_gt; f_month_lt])
    as (_ & _ & Haccepted).
  apply Haccepted.
  - intros f Hf. set_unfold in Hf.
    destruct Hf as [->|[->|[->|[]]]]; split; by eexists.
  - assert (¬ inequality_filter f_city) as Hcity.
    { intros (sym & [= <-] & Hsym). set_unfold in Hsym.
      repeat destruct Hsym as [Hsym|Hsym];
        first [discriminate Hsym | destruct Hsym]. }
    intros f1 f2 H1 H2 I1 I2.
    set_unfold in H1. set_unfold in H2.
    destruct H1 as [->|[->|[->|[]]]]; destruct H2 as [->|[->|[->|[]]]];
      first [reflexivity | destruct (Hcity I1) | destruct (Hcity I2)].
Defined.

(** A field outside the table is refused. *)
Example unknown_field_rejected :
  _formatFilters
    [ConferenceQueryForm.mk (Some "COUNTRY") (Some "EQ") (Some "France")]
  = inl BadRequestException.
Proof. reflexivity. Qed.

(** The filters [maxAttendees > 5] and [month < 6] are refused. *)
Example two_inequality_fields_rejected :
  _formatFilters
    [ConferenceQueryForm.mk (Some "MAX_ATTENDEES") (Some "GT") (Some "5");
     ConferenceQueryForm.mk (Some "MONTH") (Some "LT") (Some "6")]
  = inl BadRequestException.
Proof. reflexivity. Qed.

(** ** Conference creation *)




Example odd_conference_created :
  datastore
    (_createConferenceObject strptime_ymd (Some alice) odd_form st_empty).1
    !! pycon_key
  = Some (EConference (conference "PyCon" 0 7)).
Proof. vm_compute. reflexivity. Qed.

(** The endpoint itself raises. *)
Example createConference_raises user request st :
  createConference user request st = (st, inl TypeError).
Proof. reflexivity. Qed.

(** ** The wishlist *)





(** ** The featured speaker *)

Lemma append_assoc (a b c : string) : (a +:+ b) +:+ c = a +:+ (b +:+ c).
Proof.
  induction a as [|x a IH]; [done|].
  change (String x ((a +:+ b) +:+ c) = String x (a +:+ (b +:+ c))).
  by f_equal.
Qed.

Lemma format2_ends a b : format2 a b = (a +:+ " ") +:+ b.
Proof. unfold format2. symmetry. apply append_assoc. Qed.

Lemma format2_nonempty a b : a ≠ "" -> format2 a b ≠ "".
Proof. destruct a; [done|]. by intros _. Qed.

Lemma getFeaturedSpeaker_cached st s :
  memcache st !! MEMCACHE_FEATURED_SPEAKER_KEY = Some s -> s ≠ "" ->
  getFeaturedSpeaker st = (st, inr s).
Proof.
  intros Hs Hne. unfold getFeaturedSpeaker, bind, memcache_get. rewrite Hs.
  simpl. by rewrite bool_decide_eq_false_2.
Qed.

Lemma cacheFeaturedSpeaker_featured st speakerKey conferenceKey sp :
  1 < session_count conferenceKey speakerKey (datastore st) ->
  datastore st !! speakerKey = Some (ESpeaker sp) ->
  _cacheFeaturedSpeaker speakerKey conferenceKey st
  = (set_memcache
       (<[MEMCACHE_FEATURED_SPEAKER_KEY := featured sp]> (memcache st)) st,
     inr (featured sp)).
Proof.
  intros Hn Hsp. unfold _cacheFeaturedSpeaker, bind.
  destruct (Z.ltb_spec 1 (session_count conferenceKey speakerKey
                                        (datastore st))); [|lia].
  unfold ndb_get. rewrite Hsp. done.
Qed.

Lemma cacheFeaturedSpeaker_nothing st speakerKey conferenceKey :
  session_count conferenceKey speakerKey (datastore st) <= 1 ->
  _cacheFeaturedSpeaker speakerKey conferenceKey st = (st, inr "").
Proof.
  intros Hn. unfold _cacheFeaturedSpeaker, bind.
  by destruct (Z.ltb_spec 1 (session_count conferenceKey speakerKey
                                           (datastore st))); [lia|].
Qed.

(** C8. When the speaker has more than one session under the conference
    (and the speaker exists), [_cacheFeaturedSpeaker] stores a string that
    ends with the speaker's name under the featured-speaker key, and
    [getFeaturedSpeaker] then returns that string. When the speaker has at
    most one session there, the state is left as it is: nothing is written,
    and a value cached before is still cached. *)
Theorem cache_featured_speaker_spec
    (st : State) (speakerKey conferenceKey : Key) :
  let sessionCount :=
    session_count conferenceKey speakerKey (datastore st) in
  (1 < sessionCount ->
   ∀ sp, datastore st !! speakerKey = Some (ESpeaker sp) ->
     let st' :=
       set_memcache
         (<[MEMCACHE_FEATURED_SPEAKER_KEY := featured sp]> (memcache st)) st in
     _cacheFeaturedSpeaker speakerKey conferenceKey st
     = (st', inr (featured sp))
     ∧ getFeaturedSpeaker st' = (st', inr (featured sp))
     ∧ ∀ name, Speaker.speaker_name sp = Some name ->
               ∃ text, featured sp = text +:+ name)
  ∧ (sessionCount <= 1 ->
     _cacheFeaturedSpeaker speakerKey conferenceKey st = (st, inr "")
     ∧ ∀ s, memcache st !! MEMCACHE_FEATURED_SPEAKER_KEY = Some s ->
            memcache (_cacheFeaturedSpeaker speakerKey conferenceKey st).1
              !! MEMCACHE_FEATURED_SPEAKER_KEY = Some s).
Proof.
  intros sessionCount. split.
  - intros Hn sp Hsp st'. split; [by apply cacheFeaturedSpeaker_featured|].
    split.
    + apply getFeaturedSpeaker_cached.
      * subst st'. simpl. apply lookup_insert_eq.
      * by apply format2_nonempty.
    + intros name Hname. eexists. unfold featured. rewrite Hname.
      apply format2_ends.
  - intros Hn. rewrite cacheFeaturedSpeaker_nothing by done. done.
Qed.

Lemma cache_featured_speaker_spec_witness :
  (_cacheFeaturedSpeaker ada_key pycon_key st_sessions
   = (set_memcache
        (<[MEMCACHE_FEATURED_SPEAKER_KEY := featured ada]>
           (memcache st_sessions)) st_sessions,
      inr (featured ada)))
  ∧ _cacheFeaturedSpeaker grace_key pycon_key st_sessions
    = (st_sessions, inr "").
Proof.
  destruct (cache_featured_speaker_spec st_sessions ada_key pycon_key)
    as [Hmany _].
  destruct (cache_featured_speaker_spec st_sessions grace_key pycon_key)
    as [_ Hone].
  split.
  - apply (Hmany ltac:(vm_compute; reflexivity) ada).
    vm_compute. reflexivity.
  - apply Hone. vm_compute. discriminate.
Defined.

Example featured_ada :
  featured ada = "The featured speaker for this conference is:  Ada Lovelace".
Proof. reflexivity. Qed.

(** C10. The featured speaker is one cache entry for all conferences: a
    recomputation for a second speaker and conference that qualifies writes
    under the same key, replaces what the first one cached, and
    [getFeaturedSpeaker] returns the string written last. *)
Theorem featured_speaker_cache_is_global
    (st : State) (speaker1 conference1 speaker2 conference2 : Key)
    (sp1 sp2 : Speaker.t) :
  1 < session_count conference1 speaker1 (datastore st) ->
  datastore st !! speaker1 = Some (ESpeaker sp1) ->
  1 < session_count conference2 speaker2 (datastore st) ->
  datastore st !! speaker2 = Some (ESpeaker sp2) ->
  let st1 := (_cacheFeaturedSpeaker speaker1 conference1 st).1 in
  let st2 := (_cacheFeaturedSpeaker speaker2 conference2 st1).1 in
  memcache st1 = <[MEMCACHE_FEATURED_SPEAKER_KEY := featured sp1]> (memcache st)
  ∧ getFeaturedSpeaker st1 = (st1, inr (featured sp1))
  ∧ memcache st2 = <[MEMCACHE_FEATURED_SPEAKER_KEY := featured sp2]> (memcache st)
  ∧ getFeaturedSpeaker st2 = (st2, inr (featured sp2)).
Proof.
  intros Hn1 Hsp1 Hn2 Hsp2 st1 st2.
  subst st2 st1.
  rewrite (cacheFeaturedSpeaker_featured _ _ _ _ Hn1 Hsp1). simpl.
  rewrite (cacheFeaturedSpeaker_featured _ _ _ sp2) by done. simpl.
  rewrite insert_insert_eq.
  repeat split; try done;
    (apply getFeaturedSpeaker_cached;
     [simpl; apply lookup_insert_eq|by apply format2_nonempty]).
Qed.

Lemma featured_speaker_cache_is_global_witness :
  getFeaturedSpeaker
    (_cacheFeaturedSpeaker grace_key jsconf_key
       (_cacheFeaturedSpeaker ada_key pycon_key st_sessions).1).1
  = ((_cacheFeaturedSpeaker grace_key jsconf_key
        (_cacheFeaturedSpeaker ada_key pycon_key st_sessions).1).1,
     inr (featured grace)).
Proof.
  destruct (featured_speaker_cache_is_global st_sessions
              ada_key pycon_key grace_key jsconf_key ada grace)
    as (_ & _ & _ & Hlast).
  - vm_compute. reflexivity.
  - vm_compute. reflexivity.
  - vm_compute. reflexivity.
  - vm_compute. reflexivity.
  - exact Hlast.
Defined.

(** ** Announcements *)

Lemma elem_of_conferences (d : gmap Key Entity) k c :
  (k, c) ∈ conferences d <-> d !! k = Some (EConference c).
Proof.
  unfold conferences. rewrite elem_of_map_to_list, lookup_omap_Some.
  split.
  - intros (e & He & Hk). by destruct e; simplify_eq.
  - intros Hk. by exists (EConference c).
Qed.


Lemma getAnnouncement_cached st s :
  memcache st !! MEMCACHE_ANNOUNCEMENTS_KEY = Some s -> s ≠ "" ->
  getAnnouncement st = (st, inr s).
Proof.
  intros Hs Hne. unfold getAnnouncement, bind, memcache_get. rewrite Hs.
  simpl. by rewrite bool_decide_eq_false_2.
Qed.



Lemma fetch_by_seats_Permutation l : fetch_by_seats l ≡ₚ l.
Proof. apply merge_sort_Permutation. Qed.


Example announcement_four :
  (_cacheAnnouncement fetch_by_seats st_four).2
  = inr ("Last chance to attend! The following conferences are nearly "
         +:+ "sold out: JSConf, PyCon, RustConf").
Proof. vm_compute. reflexivity. Qed.

(** * Further properties *)

(** ** Profiles, once more *)

Lemma getProfileFromUser_keeps st u :
  ∃ st' e,
    _getProfileFromUser (Some u) st = (st', inr (profile_key u, e))
    ∧ datastore st' !! profile_key u = Some e
    ∧ (∀ k x, datastore st !! k = Some x -> datastore st' !! k = Some x)
    ∧ (∀ k, k ≠ profile_key u -> datastore st' !! k = datastore st !! k)
    ∧ st' = set_datastore (datastore st') st.
Proof.
  unfold _getProfileFromUser, bind, ndb_get, ndb_put, ret. simpl.
  destruct (datastore st !! profile_key u) as [e|] eqn:E.
  - exists st, e. repeat split; try done. by destruct st.
  - eexists _, _. split; [done|]. simpl. rewrite lookup_insert_eq.
    repeat split; try done.
    + intros k x Hk. rewrite lookup_insert_ne; [done|]. intros <-.
      by rewrite E in Hk.
    + intros k Hk. by rewrite lookup_insert_ne.
Qed.

(** X1. For a signed-in caller [_getProfileFromUser] does not raise: it
    returns the entity stored under the caller's profile key, which it has
    created if there was none. Every entity stored before is still stored as
    it was (a stored profile is never replaced), nothing but the datastore is
    touched, and a second call returns the same entity and changes
    nothing. *)
Theorem get_profile_creates_once st u :
  ∃ st' e,
    _getProfileFromUser (Some u) st = (st', inr (profile_key u, e))
    ∧ datastore st' !! profile_key u = Some e
    ∧ (∀ k x, datastore st !! k = Some x -> datastore st' !! k = Some x)
    ∧ (∀ k, k ≠ profile_key u -> datastore st' !! k = datastore st !! k)
    ∧ st' = set_datastore (datastore st') st
    ∧ _getProfileFromUser (Some u) st' = (st', inr (profile_key u, e)).
Proof.
  destruct (getProfileFromUser_keeps st u)
    as (st' & e & Hrun & He & Hkeeps & Hother & Hst).
  exists st', e. repeat split; try done.
  unfold _getProfileFromUser, bind, ndb_get. simpl. by rewrite He.
Qed.

Lemma registration_datastore_only user k reg st st' r :
  _conferenceRegistration user k reg st = (st', r) ->
  st' = set_datastore (datastore st') st.
Proof.
  unfold _conferenceRegistration, transactional.
  destruct (_conferenceRegistration_body user k reg st) as [st1 [e|b]] eqn:E;
    intros; simplify_eq.
  - rewrite (registration_body_frame _ _ _ _ _ _ E). by destruct st.
  - by apply (registration_body_frame _ _ _ _ _ _ E).
Qed.



(** ** Python's list operations, once more *)

Lemma remove_first_app_last k l :
  k ∉ l -> list_remove_first k (l ++ [k]) = l.
Proof.
  induction l as [|y l IH]; simpl; intros Hin.
  - by rewrite decide_True.
  - apply not_elem_of_cons in Hin as [? ?].
    rewrite decide_False by done. by rewrite IH.
Qed.


Lemma Conference_set_seats_set n m c :
  Conference.set_seatsAvailable n (Conference.set_seatsAvailable m c)
  = Conference.set_seatsAvailable n c.
Proof. done. Qed.

Lemma Conference_set_seats_id c :
  Conference.set_seatsAvailable (Conference.seatsAvailable c) c = c.
Proof. by destruct c. Qed.

Lemma Profile_set_keys_set l1 l2 p :
  Profile.set_conferenceKeysToAttend l1
    (Profile.set_conferenceKeysToAttend l2 p)
  = Profile.set_conferenceKeysToAttend l1 p.
Proof. done. Qed.

Lemma Profile_set_keys_id p :
  Profile.set_conferenceKeysToAttend (Profile.conferenceKeysToAttend p) p = p.
Proof. by destruct p. Qed.

(** X3. Registering and then unregistering gives the seat back and restores
    the caller's attending list: the state afterwards is the state before
    with the caller's profile stored, which is the state before when the
    profile was stored already. *)
Theorem register_then_unregister st u wsck c p :
  datastore st !! wsck = Some (EConference c) ->
  caller_profile st u = Some p ->
  wsck ∉ Profile.conferenceKeysToAttend p ->
  0 < Conference.seatsAvailable c ->
  ∃ st1,
    registerForConference (Some u) wsck st = (st1, inr true)
    ∧ unregisterFromConference (Some u) wsck st1
      = (with_profile st u p, inr true)
    ∧ (datastore st !! profile_key u = Some (EProfile p) ->
       with_profile st u p = st).
Proof.
  intros Hc Hp Hin Hs.
  pose proof (caller_profile_not_conference _ _ _ _ _ Hp Hc) as Hne.
  eexists. split; [by apply register_ok|]. split; [|apply with_profile_stored].
  rewrite (unregister_ok _ u wsck
             (Conference.set_seatsAvailable (Conference.seatsAvailable c - 1) c)
             (Profile.set_conferenceKeysToAttend
                (Profile.conferenceKeysToAttend p ++ [wsck]) p)).
  - f_equal. unfold with_profile.
    cbn [datastore set_datastore Profile.conferenceKeysToAttend
         Profile.set_conferenceKeysToAttend Conference.seatsAvailable
         Conference.set_seatsAvailable].
    replace (Conference.seatsAvailable c - 1 + 1)
      with (Conference.seatsAvailable c) by lia.
    rewrite remove_first_app_last by done.
    rewrite Conference_set_seats_set, Conference_set_seats_id.
    rewrite Profile_set_keys_set, Profile_set_keys_id.
    destruct st as [d n m q]. unfold set_datastore. simpl. f_equal.
    simpl in Hc.
    assert (profile_key u ≠ wsck) as Hne' by done.
    apply map_eq. intros j.
    destruct (decide (j = wsck)) as [->|Hj].
    + rewrite lookup_insert_eq. rewrite lookup_insert_ne by done. done.
    + rewrite lookup_insert_ne by done.
      destruct (decide (j = profile_key u)) as [->|Hj'].
      * by rewrite !lookup_insert_eq.
      * by rewrite !lookup_insert_ne by done.
  - simpl. apply lookup_insert_eq.
  - unfold caller_profile. simpl.
    rewrite lookup_insert_ne by done. by rewrite lookup_insert_eq.
  - simpl. apply elem_of_app. right. by apply list_elem_of_singleton.
Qed.

Lemma register_then_unregister_witness :
  ∃ st1,
    registerForConference (Some bob) pycon_key st_pycon = (st1, inr true)
    ∧ unregisterFromConference (Some bob) pycon_key st1
      = (with_profile st_pycon bob (new_profile bob), inr true).
Proof.
  destruct (register_then_unregister st_pycon bob pycon_key pycon
              (new_profile bob)) as (st1 & Hreg & Hunreg & _).
  - reflexivity.
  - reflexivity.
  - simpl. apply not_elem_of_nil.
  - simpl. lia.
  - exists st1. split; [exact Hreg|exact Hunreg].
Defined.

(** X4. Whatever its outcome, a registration or unregistration writes
    nothing but the datastore, and there only the entities under the
    conference key and under the caller's profile key. Of a conference it
    changes the free seats only, of the caller's profile the attending list
    only. *)
Theorem registration_frame user wsck reg st st' r :
  _conferenceRegistration user wsck reg st = (st', r) ->
  st' = set_datastore (datastore st') st
  ∧ (∀ k, k ≠ wsck -> (∀ u, user = Some u -> k ≠ profile_key u) ->
          datastore st' !! k = datastore st !! k)
  ∧ (∀ c, datastore st !! wsck = Some (EConference c) ->
          ∃ n, datastore st' !! wsck
               = Some (EConference (Conference.set_seatsAvailable n c)))
  ∧ (∀ u p, user = Some u ->
            datastore st !! profile_key u = Some (EProfile p) ->
            ∃ l, datastore st' !! profile_key u
                 = Some (EProfile (Profile.set_conferenceKeysToAttend l p))).
Proof.
  intros Hrun. split; [by eapply registration_datastore_only|].
  assert (∀ c, datastore st !! wsck = Some (EConference c) ->
               datastore st !! wsck
               = Some (EConference
                         (Conference.set_seatsAvailable
                            (Conference.seatsAvailable c) c))) as Hsame_c
    by (intros c ->; by rewrite Conference_set_seats_id).
  assert (∀ u p, datastore st !! profile_key u = Some (EProfile p) ->
                 datastore st !! profile_key u
                 = Some (EProfile
                           (Profile.set_conferenceKeysToAttend
                              (Profile.conferenceKeysToAttend p) p)))
    as Hsame_p by (intros u p ->; by rewrite Profile_set_keys_id).
  destruct r as [e|b].
  { apply registration_rollback in Hrun as ->.
    split; [done|]. split; [by eauto|by eauto]. }
  destruct (registration_answered _ _ _ _ _ _ Hrun)
    as (u & p & -> & Hp & [(-> & -> & Hin & ->)|(-> & c & Hk & Hreg)]).
  - unfold with_profile. simpl. split; [|split].
    + intros k _ Hk. rewrite lookup_insert_ne; [done|].
      intros <-. by apply (Hk u).
    + intros c Hc.
      pose proof (caller_profile_not_conference _ _ _ _ _ Hp Hc).
      rewrite lookup_insert_ne by done. eauto.
    + intros ? q [= <-] Hq. rewrite lookup_insert_eq.
      unfold caller_profile in Hp. rewrite Hq in Hp. simplify_eq.
      exists (Profile.conferenceKeysToAttend p).
      by rewrite Profile_set_keys_id.
  - pose proof (caller_profile_not_conference _ _ _ _ _ Hp Hk) as Hne.
    assert (∃ n l,
               datastore st'
               = <[wsck := EConference (Conference.set_seatsAvailable n c)]>
                   (<[profile_key u :=
                        EProfile (Profile.set_conferenceKeysToAttend l p)]>
                      (datastore st))) as (n & l & ->).
    { destruct reg.
      - destruct Hreg as [Hin Hfree].
        pose proof (register_ok _ _ _ _ _ Hk Hp Hin Hfree) as E.
        unfold registerForConference in E. rewrite E in Hrun.
        injection Hrun as <-. by eexists _, _.
      - pose proof (unregister_ok _ _ _ _ _ Hk Hp Hreg) as E.
        unfold unregisterFromConference in E. rewrite E in Hrun.
        injection Hrun as <-. by eexists _, _. }
    split; [|split].
    + intros k Hkw Hku. rewrite !lookup_insert_ne; [done| |done].
      intros <-. by apply (Hku u).
    + intros c' Hc'. simplify_eq. rewrite lookup_insert_eq. eauto.
    + intros ? q [= <-] Hq. rewrite lookup_insert_ne by done.
      rewrite lookup_insert_eq.
      unfold caller_profile in Hp. rewrite Hq in Hp. simplify_eq. eauto.
Qed.

Lemma registration_frame_witness :
  ∃ n,
    datastore
      (_conferenceRegistration (Some bob) pycon_key true st_pycon).1
      !! pycon_key
    = Some (EConference (Conference.set_seatsAvailable n pycon)).
Proof.
  destruct (registration_frame (Some bob) pycon_key true st_pycon
              (_conferenceRegistration (Some bob) pycon_key true st_pycon).1
              (_conferenceRegistration (Some bob) pycon_key true st_pycon).2)
    as (_ & _ & Hconf & _).
  - by destruct (_conferenceRegistration (Some bob) pycon_key true st_pycon).
  - apply (Hconf pycon). reflexivity.
Defined.

(** ** The attending lists stay sound *)









(** ** The attendees of a conference *)










Section AttendeesProperties.

Context {ProfileMiniForm : Type}.
Variable _copyProfileMiniToForm : Profile.t -> Exception + ProfileMiniForm.
Variable fetch_profiles : list (Key * Profile.t) -> list (Key * Profile.t).




(** X6. [getConferenceAttendees] changes nothing. It raises
    [UnauthorizedException] without a signed-in user, [BadRequestException]
    (not [NotFoundException]) when nothing is stored under the key, and
    [ForbiddenException] when the caller is not the organizer of the
    conference; only the organizer of a stored conference gets a list. *)
Theorem attendees_only_for_organizer user wsck st :
  let run :=
    getConferenceAttendees _ _copyProfileMiniToForm fetch_profiles
      user wsck st in
  run.1 = st
  ∧ (user = None -> run.2 = inl UnauthorizedException)
  ∧ (user ≠ None -> datastore st !! wsck = None ->
     run.2 = inl BadRequestException)
  ∧ (∀ u c, user = Some u ->
            datastore st !! wsck = Some (EConference c) ->
            user_id u ≠ Conference.organizerUserId c ->
            run.2 = inl ForbiddenException)
  ∧ (∀ items, run.2 = inr items ->
              ∃ u c, user = Some u
                     ∧ datastore st !! wsck = Some (EConference c)
                     ∧ user_id u = Conference.organizerUserId c).
Proof.
  intros run. subst run. unfold getConferenceAttendees, bind, ndb_get.
  destruct user as [u|]; simpl; [|by repeat split].
  destruct (datastore st !! wsck) as [[p|c|s|s]|] eqn:E; simpl;
    try (by repeat split).
  case_bool_decide as Hu; simpl; [by repeat split|].
  assert (∀ u' c',
             Some u = Some u' ->
             Some (EConference c) = Some (EConference c') ->
             user_id u' ≠ Conference.organizerUserId c' -> False)
    as Hno by (by intros ? ? [= <-] [= <-]).
  destruct (copy_profiles _ _ _) as [e|items]; simpl;
    repeat split; try done; try (intros; exfalso; by eapply Hno).
  intros _ _. by exists u, c.
Qed.


End AttendeesProperties.




(** ** The wishlist, once more *)

Lemma Profile_set_wishlist_set l1 l2 p :
  Profile.set_sessionWishlist l1 (Profile.set_sessionWishlist l2 p)
  = Profile.set_sessionWishlist l1 p.
Proof. done. Qed.

Lemma Profile_set_wishlist_id p :
  Profile.set_sessionWishlist (Profile.sessionWishlist p) p = p.
Proof. by destruct p. Qed.

Lemma wishlist_run st u key flag p e :
  caller_profile st u = Some p ->
  datastore (with_profile st u p) !! key = Some e ->
  _wishlistRegistration (Some u) key flag st
  = if flag then
      if bool_decide (key ∈ Profile.sessionWishlist p)
      then (with_profile st u p, inl ConflictException)
      else (with_profile st u
              (Profile.set_sessionWishlist
                 (Profile.sessionWishlist p ++ [key]) p), inr true)
    else
      if bool_decide (key ∈ Profile.sessionWishlist p)
      then (with_profile st u
              (Profile.set_sessionWishlist
                 (list_remove_first key (Profile.sessionWishlist p)) p),
            inr true)
      else (with_profile st u p, inl ConflictException).
Proof.
  intros Hp He. unfold _wishlistRegistration, bind.
  rewrite (getProfileFromUser_spec _ _ _ Hp).
  unfold ndb_get. rewrite He. simpl.
  unfold with_profile, ndb_put, ret, raise, set_datastore. simpl.
  destruct flag; case_bool_decide; simpl; try done;
    by rewrite insert_insert_eq.
Qed.



(** X10. The wishlist takes the key of any stored entity: the kind of the
    entity is never looked at, so the key of a conference, a speaker or a
    profile is added (when absent) and removed (when present) just like the
    key of a session. *)
Theorem wishlist_accepts_any_entity st u key e p :
  datastore st !! key = Some e ->
  caller_profile st u = Some p ->
  let wishlist := Profile.sessionWishlist p in
  (key ∉ wishlist ->
   addSessionToWishlist (Some u) key st
   = (with_profile st u (Profile.set_sessionWishlist (wishlist ++ [key]) p),
      inr true))
  ∧ (key ∈ wishlist ->
     removeSessionFromWishlist (Some u) key st
     = (with_profile st u
          (Profile.set_sessionWishlist (list_remove_first key wishlist) p),
        inr true)).
Proof.
  intros He Hp wishlist.
  assert (∃ e', datastore (with_profile st u p) !! key = Some e') as [e' He'].
  { unfold with_profile. simpl.
    destruct (decide (key = profile_key u)) as [->|Hne].
    - rewrite lookup_insert_eq. eauto.
    - rewrite lookup_insert_ne by done. eauto. }
  unfold addSessionToWishlist, removeSessionFromWishlist.
  rewrite !(wishlist_run _ _ _ _ _ _ Hp He'). fold wishlist.
  split; intros Hin.
  - by rewrite bool_decide_eq_false_2.
  - by rewrite bool_decide_eq_true_2.
Qed.

Lemma wishlist_accepts_any_entity_witness :
  addSessionToWishlist (Some bob) pycon_key st_pycon
  = (with_profile st_pycon bob
       (Profile.set_sessionWishlist ([] ++ [pycon_key]) (new_profile bob)),
     inr true).
Proof.
  destruct (wishlist_accepts_any_entity st_pycon bob pycon_key
              (EConference pycon) (new_profile bob)) as [Hadd _].
  - reflexivity.
  - reflexivity.
  - apply Hadd. simpl. apply not_elem_of_nil.
Defined.

(** X11. Adding a key to the wishlist and then removing it restores the
    wishlist: the state afterwards is the state before with the caller's
    profile stored, which is the state before when the profile was stored
    already. *)
Theorem wishlist_add_then_remove st u key e p :
  datastore st !! key = Some e ->
  caller_profile st u = Some p ->
  key ∉ Profile.sessionWishlist p ->
  ∃ st1,
    addSessionToWishlist (Some u) key st = (st1, inr true)
    ∧ removeSessionFromWishlist (Some u) key st1
      = (with_profile st u p, inr true)
    ∧ (datastore st !! profile_key u = Some (EProfile p) ->
       with_profile st u p = st).
Proof.
  intros He Hp Hin.
  set (p1 :=
         Profile.set_sessionWishlist (Profile.sessionWishlist p ++ [key]) p).
  assert (∀ q, ∃ e', datastore (with_profile st u q) !! key = Some e')
    as Hstored.
  { intros q. unfold with_profile. simpl.
    destruct (decide (key = profile_key u)) as [->|Hne].
    - rewrite lookup_insert_eq. eauto.
    - rewrite lookup_insert_ne by done. eauto. }
  exists (with_profile st u p1). split; [|split].
  - destruct (Hstored p) as [e' He'].
    unfold addSessionToWishlist.
    rewrite (wishlist_run _ _ _ _ _ _ Hp He').
    by rewrite bool_decide_eq_false_2.
  - assert (with_profile (with_profile st u p1) u p1 = with_profile st u p1)
      as Hsame.
    { unfold with_profile, set_datastore. simpl. by rewrite insert_insert_eq. }
    destruct (Hstored p1) as [e' He'].
    unfold removeSessionFromWishlist.
    rewrite (wishlist_run _ _ _ _ p1 e').
    + rewrite bool_decide_eq_true_2.
      2:{ simpl. apply elem_of_app. right. by apply list_elem_of_singleton. }
      f_equal. subst p1.
      cbn [Profile.sessionWishlist Profile.set_sessionWishlist].
      rewrite remove_first_app_last by done.
      rewrite Profile_set_wishlist_set, Profile_set_wishlist_id.
      unfold with_profile, set_datastore. simpl. by rewrite insert_insert_eq.
    + apply caller_profile_with_profile.
    + by rewrite Hsame.
  - apply with_profile_stored.
Qed.

Lemma wishlist_add_then_remove_witness :
  ∃ st1,
    addSessionToWishlist (Some bob) (session_key pycon_key 20) st_sessions
    = (st1, inr true)
    ∧ removeSessionFromWishlist (Some bob) (session_key pycon_key 20) st1
      = (with_profile st_sessions bob (new_profile bob), inr true).
Proof.
  destruct (wishlist_add_then_remove st_sessions bob
              (session_key pycon_key 20) (ESession (talk ada_key))
              (new_profile bob)) as (st1 & Hadd & Hremove & _).
  - vm_compute. reflexivity.
  - vm_compute. reflexivity.
  - simpl. apply not_elem_of_nil.
  - exists st1. split; [exact Hadd|exact Hremove].
Defined.

(** X12. Whatever its outcome, a wishlist request writes nothing but the
    datastore, and there only the entity under the caller's profile key, of
    which it changes the wishlist only: conferences, their free seats and
    the attending lists are as before. *)
Theorem wishlist_frame user key flag st st' r :
  _wishlistRegistration user key flag st = (st', r) ->
  st' = set_datastore (datastore st') st
  ∧ (∀ k, (∀ u, user = Some u -> k ≠ profile_key u) ->
          datastore st' !! k = datastore st !! k)
  ∧ (∀ u p, user = Some u ->
            datastore st !! profile_key u = Some (EProfile p) ->
            ∃ l, datastore st' !! profile_key u
                 = Some (EProfile (Profile.set_sessionWishlist l p))).
Proof.
  intros Hrun. split.
  { revert st st' r Hrun.
    change (datastore_only (_wishlistRegistration user key flag)).
    unfold _wishlistRegistration.
    apply datastore_only_bind; [apply getProfileFromUser_datastore_only|].
    intros [p_key prof]. unfold get_sessionWishlist. datastore_only. }
  destruct user as [u|]; [|by injection Hrun as <- _].
  destruct (caller_profile st u) as [p|] eqn:Hp.
  - assert (∃ l, datastore st'
                 = <[profile_key u :=
                       EProfile (Profile.set_sessionWishlist l p)]>
                     (datastore st)) as [l ->].
    { destruct (datastore (with_profile st u p) !! key) as [e|] eqn:He.
      - rewrite (wishlist_run _ _ _ _ _ _ Hp He) in Hrun.
        destruct flag; case_bool_decide; injection Hrun as <- _; simpl;
          first [by eexists
                | exists (Profile.sessionWishlist p);
                  by rewrite Profile_set_wishlist_id ].
      - unfold _wishlistRegistration, bind in Hrun.
        rewrite (getProfileFromUser_spec _ _ _ Hp) in Hrun.
        unfold ndb_get in Hrun. rewrite He in Hrun.
        injection Hrun as <- _. simpl.
        exists (Profile.sessionWishlist p).
        by rewrite Profile_set_wishlist_id. }
    split.
    + intros k Hk. rewrite lookup_insert_ne; [done|].
      intros <-. by apply (Hk u).
    + intros ? q [= <-] Hq. rewrite lookup_insert_eq.
      unfold caller_profile in Hp. rewrite Hq in Hp. simplify_eq. eauto.
  - unfold caller_profile in Hp.
    destruct (datastore st !! profile_key u) as [[]|] eqn:E; try done.
    all: assert (st' = st) as ->;
      [|split; [done|]; intros ? q [= <-] Hq; by rewrite E in Hq].
    all: unfold _wishlistRegistration, _getProfileFromUser, bind, ndb_get,
           ret, raise, get_sessionWishlist in Hrun; simpl in Hrun;
         rewrite E in Hrun;
         destruct (datastore st !! key); destruct flag; by simplify_eq/=.
Qed.

Lemma wishlist_frame_witness :
  datastore (_wishlistRegistration (Some bob) pycon_key true st_pycon).1
    !! pycon_key
  = datastore st_pycon !! pycon_key.
Proof.
  destruct (wishlist_frame (Some bob) pycon_key true st_pycon
              (_wishlistRegistration (Some bob) pycon_key true st_pycon).1
              (_wishlistRegistration (Some bob) pycon_key true st_pycon).2)
    as (_ & Hother & _).
  - by destruct (_wishlistRegistration (Some bob) pycon_key true st_pycon).
  - apply Hother. intros u [= <-]. discriminate.
Defined.

(** ** Conference creation, once more *)

Lemma convert_date_fails strptime_date field st :
  ¬ date_ok strptime_date field ->
  convert_date strptime_date field st = (st, inl ValueError).
Proof.
  unfold date_ok, convert_date. destruct field as [s|]; [|done].
  intros Hno. case_decide; [by destruct Hno; left|].
  destruct (strptime_date (substring 0 10 s)) as [d|]; [|done].
  destruct Hno. right. by eexists.
Qed.

Lemma date_ok_or_not strptime_date field :
  date_ok strptime_date field ∨ ¬ date_ok strptime_date field.
Proof.
  unfold date_ok. destruct field as [s|]; [|by left].
  destruct (decide (s = "")); [by left; left|].
  destruct (strptime_date (substring 0 10 s)) as [d|]; [by left; right|].
  right. by intros [?|[? ?]].
Qed.

Section CreationProperties.

Variable strptime_date : string -> option Date.

(** X13. [_createConferenceObject] refuses in this order: without a
    signed-in user it raises [UnauthorizedException]; else without a name (or
    with an empty one) [BadRequestException], whatever the dates; else with a
    start or end date that does not parse [ValueError]. A request that is
    refused has written nothing. *)
Theorem create_conference_refusals user request st :
  let run := _createConferenceObject strptime_date user request st in
  (user = None -> run = (st, inl UnauthorizedException))
  ∧ (user ≠ None -> truthy (ConferenceForm.name request) = false ->
     run = (st, inl BadRequestException))
  ∧ (user ≠ None -> truthy (ConferenceForm.name request) = true ->
     ¬ (date_ok strptime_date (ConferenceForm.startDate request)
        ∧ date_ok strptime_date (ConferenceForm.endDate request)) ->
     run = (st, inl ValueError))
  ∧ (∀ e, run.2 = inl e -> run.1 = st).
Proof.
  intros run. subst run. unfold _createConferenceObject.
  destruct user as [u|]; [|by repeat split].
  destruct (ConferenceForm.name request) as [name|]; simpl;
    [|by repeat split].
  case_decide as Hname.
  { rewrite bool_decide_eq_true_2 by done. by repeat split. }
  rewrite bool_decide_eq_false_2 by done. simpl.
  split; [done|]. split; [done|].
  unfold bind.
  destruct (date_ok_or_not strptime_date (ConferenceForm.startDate request))
    as [Hstart|Hstart].
  2:{ rewrite (convert_date_fails _ _ _ Hstart). split; [done|].
      by intros e _. }
  destruct (convert_date_ok _ _ st Hstart) as [v1 ->].
  destruct (date_ok_or_not strptime_date (ConferenceForm.endDate request))
    as [Hend|Hend].
  2:{ rewrite (convert_date_fails _ _ _ Hend). split; [done|].
      by intros e _. }
  destruct (convert_date_ok _ _ st Hend) as [v2 ->].
  split; [|done]. intros _ _ Hno. destruct Hno. done.
Qed.

Lemma created_run user request st st' form :
  _createConferenceObject strptime_date user request st = (st', inr form) ->
  ∃ u name startDate endDate,
    user = Some u
    ∧ ConferenceForm.name request = Some name
    ∧ convert_date strptime_date (ConferenceForm.startDate request) st
      = (st, inr startDate)
    ∧ convert_date strptime_date (ConferenceForm.endDate request) st
      = (st, inr endDate)
    ∧ let city := default DEFAULTS.city (ConferenceForm.city request) in
      let maxAttendees :=
        default DEFAULTS.maxAttendees (ConferenceForm.maxAttendees request) in
      let seatsAvailable :=
        if 0 <? maxAttendees then maxAttendees
        else default DEFAULTS.seatsAvailable
               (ConferenceForm.seatsAvailable request) in
      let topics :=
        match ConferenceForm.topics request with
        | [] => DEFAULTS.topics
        | ts => ts
        end in
      let month := match startDate with DDate d => month_of d | _ => 0 end in
      form = ConferenceForm.mk (ConferenceForm.name request)
               (Some (user_id u)) topics (Some city)
               (ConferenceForm.startDate request) (Some maxAttendees)
               (Some seatsAvailable) (ConferenceForm.endDate request)
               (ConferenceForm.websafeKey request)
               (ConferenceForm.organizerDisplayName request)
      ∧ st' = mkState
                (<[ndb_Key "Conference" (inr (next_id st)) (profile_key u) :=
                     EConference
                       (Conference.mk name (user_id u) topics city startDate
                          month endDate maxAttendees seatsAvailable)]>
                   (datastore st))
                (next_id st + 1) (memcache st)
                (taskqueue st ++ [send_confirmation_email (email u) form]).
Proof.
  unfold _createConferenceObject.
  destruct user as [u|]; [|done].
  destruct (ConferenceForm.name request) as [name|] eqn:Hname; [|done].
  case_decide; [done|]. unfold bind.
  destruct (convert_date _ (ConferenceForm.startDate request) st)
    as [st1 [e1|v1]] eqn:E1; [done|].
  apply convert_date_state in E1 as Hst1. subst st1.
  destruct (convert_date _ (ConferenceForm.endDate request) st)
    as [st2 [e2|v2]] eqn:E2; [done|].
  apply convert_date_state in E2 as Hst2. subst st2.
  simpl. intros [= <- <-]. by exists u, name, v1, v2.
Qed.

(** X14. An accepted creation stores exactly one entity, the conference under
    the key made of the caller's profile key and the allocated id, takes one
    id, queues one confirmation task for the caller's address with the
    returned form, and leaves memcache alone. The caller's profile is not
    created. The conference has the caller as organizer, the default city
    and topics for missing ones, and the month of its start date (0 without
    one); the returned form names the organizer but keeps the [websafeKey]
    of the request. *)
Theorem create_conference_effects u request st st' form :
  _createConferenceObject strptime_date (Some u) request st
  = (st', inr form) ->
  let c_key := ndb_Key "Conference" (inr (next_id st)) (profile_key u) in
  ∃ c,
    datastore st' = <[c_key := EConference c]> (datastore st)
    ∧ next_id st' = next_id st + 1
    ∧ memcache st' = memcache st
    ∧ taskqueue st'
      = taskqueue st ++ [send_confirmation_email (email u) form]
    ∧ datastore st' !! profile_key u = datastore st !! profile_key u
    ∧ ConferenceForm.name request = Some (Conference.name c)
    ∧ Conference.organizerUserId c = user_id u
    ∧ Conference.city c
      = default "Default City" (ConferenceForm.city request)
    ∧ Conference.topics c
      = (if decide (ConferenceForm.topics request = [])
         then ["Default"; "Topic"] else ConferenceForm.topics request)
    ∧ Conference.month c
      = match Conference.startDate c with DDate d => month_of d | _ => 0 end
    ∧ (∀ s, ConferenceForm.startDate request = Some s -> s ≠ "" ->
            ∃ d, strptime_date (substring 0 10 s) = Some d
                 ∧ Conference.startDate c = DDate d)
    ∧ ConferenceForm.organizerUserId form = Some (user_id u)
    ∧ ConferenceForm.websafeKey form = ConferenceForm.websafeKey request.
Proof.
  intros Hrun c_key.
  destruct (created_run _ _ _ _ _ Hrun)
    as (? & name & v1 & v2 & [= <-] & Hname & E1 & E2 & Hform & ->).
  eexists. split; [done|]. simpl.
  repeat split; try done.
  - apply lookup_insert_ne. unfold ndb_Key, profile_key. simpl.
    discriminate.
  - by destruct (ConferenceForm.topics request).
  - intros s Hs Hne. unfold convert_date in E1. rewrite Hs in E1.
    rewrite decide_False in E1 by done.
    destruct (strptime_date (substring 0 10 s)) as [d|]; [|done].
    injection E1 as <-. by exists d.
  - by rewrite Hform.
  - by rewrite Hform.
Qed.

(** X15. When every stored key that ends in an allocated id ends in one
    below the allocator's next id, the key of a created conference was not in
    use: the creation replaces no entity, and the same holds of the state
    afterwards. *)
Theorem create_conference_key_is_new u request st st' form :
  ids_allocated st ->
  _createConferenceObject strptime_date (Some u) request st
  = (st', inr form) ->
  let c_key := ndb_Key "Conference" (inr (next_id st)) (profile_key u) in
  datastore st !! c_key = None
  ∧ is_Some (datastore st' !! c_key)
  ∧ (∀ k e, datastore st !! k = Some e -> datastore st' !! k = Some e)
  ∧ ids_allocated st'.
Proof.
  intros Hids Hrun c_key.
  destruct (created_run _ _ _ _ _ Hrun)
    as (? & name & v1 & v2 & [= <-] & Hname & E1 & E2 & Hform & ->).
  fold c_key. simpl.
  assert (datastore st !! c_key = None) as Hnew.
  { destruct (datastore st !! c_key) as [e|] eqn:E; [|done].
    assert (next_id st < next_id st); [|lia].
    apply (Hids c_key "Conference"); [by eexists|].
    unfold c_key, ndb_Key. by rewrite last_snoc. }
  split; [done|]. split; [by rewrite lookup_insert_eq|]. split.
  - intros k e Hk. rewrite lookup_insert_ne; [done|].
    intros <-. by rewrite Hnew in Hk.
  - intros k kind n [e Hk] Hlast. simpl in *.
    apply lookup_insert_Some in Hk as [[<- _]|[_ Hk]].
    + unfold c_key, ndb_Key in Hlast. rewrite last_snoc in Hlast.
      simplify_eq. lia.
    + assert (n < next_id st); [|lia]. by apply (Hids k kind); [eexists|].
Qed.

End CreationProperties.

Lemma create_conference_effects_witness :
  ∃ c,
    datastore st_pycon
    = <[ndb_Key "Conference" (inr (next_id st_empty)) (profile_key alice) :=
          EConference c]> (datastore st_empty)
    ∧ next_id st_pycon = next_id st_empty + 1
    ∧ Conference.organizerUserId c = user_id alice
    ∧ Conference.month c = 10.
Proof.
  destruct (create_conference_effects strptime_ymd alice pycon_form st_empty
              st_pycon
              (ConferenceForm.mk (Some "PyCon") (Some "alice@example.com")
                 ["Default"; "Topic"] (Some "Default City")
                 (Some "2015-10-05T00:00:00") (Some 2) (Some 2) None
                 None None))
    as (c & Hd & Hn & _ & _ & _ & _ & Ho & _ & _ & Hm & Hs & _).
  - reflexivity.
  - exists c. split; [exact Hd|]. split; [exact Hn|]. split; [exact Ho|].
    destruct (Hs "2015-10-05T00:00:00" eq_refl) as (d & Hd' & Hc);
      [discriminate|].
    rewrite Hm, Hc. vm_compute in Hd'. injection Hd' as <-. reflexivity.
Defined.

Lemma create_conference_key_is_new_witness :
  datastore st_empty
    !! ndb_Key "Conference" (inr (next_id st_empty)) (profile_key alice)
  = None
  ∧ ids_allocated st_pycon.
Proof.
  destruct (create_conference_key_is_new strptime_ymd alice pycon_form
              st_empty st_pycon
              (ConferenceForm.mk (Some "PyCon") (Some "alice@example.com")
                 ["Default"; "Topic"] (Some "Default City")
                 (Some "2015-10-05T00:00:00") (Some 2) (Some 2) None
                 None None))
    as (Hnew & _ & _ & Hids).
  - intros k kind n [e He]. unfold st_empty in He. cbn [datastore] in He.
    rewrite lookup_empty in He. discriminate He.
  - reflexivity.
  - split; [exact Hnew|exact Hids].
Defined.

(** ** Speakers *)

(** X16. For a signed-in caller [addSpeaker] always answers [True]: it
    stores a speaker with the three fields of the request, as they are (a
    missing name included), under a key with a newly allocated id that was
    not in use, creates the caller's profile if there was none and leaves
    every other entity as it was; the stored ids stay below the allocator's
    next id. *)
Theorem add_speaker_stores st u speaker_name speaker_bio speaker_email :
  ids_allocated st ->
  let speaker_key := ndb_Key "Speaker" (inr (next_id st)) [] in
  let speaker :=
    ESpeaker (Speaker.mk speaker_name speaker_bio speaker_email) in
  ∃ st',
    addSpeaker (Some u) speaker_name speaker_bio speaker_email st
    = (st', inr true)
    ∧ datastore st !! speaker_key = None
    ∧ datastore st' !! speaker_key = Some speaker
    ∧ (∀ k e, datastore st !! k = Some e -> datastore st' !! k = Some e)
    ∧ (∀ k, k ≠ speaker_key -> k ≠ profile_key u ->
            datastore st' !! k = datastore st !! k)
    ∧ is_Some (datastore st' !! profile_key u)
    ∧ next_id st' = next_id st + 1
    ∧ ids_allocated st'.
Proof.
  intros Hids speaker_key speaker.
  assert (datastore st !! speaker_key = None) as Hnew.
  { destruct (datastore st !! speaker_key) as [e|] eqn:E; [|done].
    assert (next_id st < next_id st); [|lia].
    apply (Hids speaker_key "Speaker"); [by eexists|done]. }
  assert (speaker_key ≠ profile_key u) as Hne by done.
  destruct (getProfileFromUser_keeps st u)
    as (st1 & e & Hrun & He & Hkeeps & Hother & Hst1).
  unfold addSpeaker, bind. rewrite Hrun.
  unfold allocate_id, ndb_put, ret. simpl.
  eexists. split; [done|]. simpl.
  assert (next_id st1 = next_id st) as Hn by (by rewrite Hst1).
  rewrite Hn. fold speaker_key.
  split; [done|]. split; [by rewrite lookup_insert_eq|].
  split; [|split; [|split; [|split]]].
  - intros k x Hk. rewrite lookup_insert_ne; [by apply Hkeeps|].
    intros <-. by rewrite Hnew in Hk.
  - intros k Hk1 Hk2. rewrite lookup_insert_ne by done. by apply Hother.
  - rewrite lookup_insert_ne by done. by eexists.
  - done.
  - intros k kind n [x Hk] Hlast. simpl in *.
    apply lookup_insert_Some in Hk as [[<- _]|[_ Hk]].
    + unfold speaker_key, ndb_Key in Hlast. simpl in Hlast.
      simplify_eq. lia.
    + destruct (decide (k = profile_key u)) as [->|Hkp].
      * unfold profile_key, ndb_Key in Hlast. simpl in Hlast. simplify_eq.
      * rewrite Hother in Hk by done.
        assert (n < next_id st); [|lia]. by apply (Hids k kind); [eexists|].
Qed.

Lemma add_speaker_stores_witness :
  ∃ st',
    addSpeaker (Some alice) (Some "Ada Lovelace") None None st_pycon
    = (st', inr true)
    ∧ datastore st' !! ndb_Key "Speaker" (inr (next_id st_pycon)) []
      = Some (ESpeaker ada).
Proof.
  destruct (add_speaker_stores st_pycon alice (Some "Ada Lovelace") None None)
    as (st' & Hrun & _ & Hstored & _).
  - intros k kind n [e He] Hlast. unfold st_pycon in He. cbn [datastore] in He.
    apply lookup_singleton_Some in He as [<- _].
    vm_compute in Hlast. injection Hlast as _ <-. reflexivity.
  - exists st'. split; [exact Hrun|exact Hstored].
Defined.

Example add_speaker_needs_a_user name bio mail st :
  addSpeaker None name bio mail st = (st, inl UnauthorizedException).
Proof. reflexivity. Qed.

(** ** Queries for conferences *)

Lemma formatFilters_rejects filters :
  _formatFilters filters = inl BadRequestException <-> rejected filters.
Proof.
  unfold _formatFilters. rewrite loop_rejects by done.
  split; [|by left]. intros [?|(x & ? & ? & _)]; done.
Qed.

Lemma field_of_nonempty f x : field_of f = Some x -> x ≠ "".
Proof.
  unfold field_of. destruct (ConferenceQueryForm.field f) as [k|]; [|done].
  apply FIELDS_nonempty.
Qed.

(** Once an inequality field is set, an accepted list ends with it. *)
Lemma loop_keeps_field filters : ∀ x acc iq' fs,
  x ≠ "" ->
  _formatFilters_loop filters (Some x) acc = inr (iq', fs) ->
  iq' = Some x.
Proof.
  induction filters as [|f filters IH]; intros x acc iq' fs Hx; simpl.
  { by intros [= <- _]. }
  fold (field_of f). fold (operator_of f).
  destruct (field_of f) as [fld|] eqn:Hfld; [|done].
  destruct (operator_of f) as [sym|] eqn:Hop; [|done].
  case_bool_decide as Hsym; simpl; [by apply IH|].
  rewrite (bool_decide_eq_false_2 (x = "")) by done. simpl.
  case_bool_decide as Hsame; simpl; [|done].
  injection Hsame as ->. by apply IH.
Qed.

(** In an accepted list, every inequality is on the inequality field. *)
Lemma loop_inequality_field filters : ∀ iq acc iq' fs,
  _formatFilters_loop filters iq acc = inr (iq', fs) ->
  ∃ gs, fs = acc ++ gs
        ∧ ∀ g, g ∈ gs -> filter_operator g ≠ "=" ->
               iq' = Some (filter_field g).
Proof.
  induction filters as [|f filters IH]; intros iq acc iq' fs.
  { simpl. intros [= <- <-]. exists []. rewrite app_nil_r.
    split; [done|]. intros g Hg. by apply elem_of_nil in Hg. }
  cbn [_formatFilters_loop].
  fold (field_of f). fold (operator_of f).
  destruct (field_of f) as [fld|] eqn:Hfld; [|done].
  destruct (operator_of f) as [sym|] eqn:Hop; [|done].
  case_bool_decide as Hsym; simpl.
  - intros H. destruct (IH _ _ _ _ H) as (gs & -> & Hgs).
    eexists (_ :: gs). rewrite <-app_assoc. split; [done|].
    intros g [->|Hg]%elem_of_cons; [done|by apply Hgs].
  - destruct (truthy iq && negb (bool_decide (iq = Some fld))); [done|].
    intros H. destruct (IH _ _ _ _ H) as (gs & -> & Hgs).
    eexists (_ :: gs). rewrite <-app_assoc. split; [done|].
    intros g [->|Hg]%elem_of_cons; [|by apply Hgs]. intros _. simpl.
    eapply loop_keeps_field; [|done]. by eapply field_of_nonempty.
Qed.

Section QueryProperties.

Variable int : string -> option Z.

Lemma getQuery_loop_errors fs : ∀ q e,
  _getQuery_loop int fs q = inl e -> e = ValueError ∨ e = TypeError.
Proof.
  induction fs as [|g fs IH]; intros q e; simpl; [done|].
  case_bool_decide; simpl; [|by apply IH].
  unfold int_value. destruct (filter_value g) as [s|]; [|intros [= <-]; eauto].
  destruct (int s); [by apply IH|intros [= <-]; eauto].
Qed.

Lemma getQuery_loop_result fs : ∀ q q',
  _getQuery_loop int fs q = inr q' ->
  query_kind q' = query_kind q
  ∧ query_orders q' = query_orders q
  ∧ ∃ nodes, query_filters q' = query_filters q ++ nodes
             ∧ Forall2 (node_of int) fs nodes.
Proof.
  induction fs as [|g fs IH]; intros q q'; simpl.
  { intros [= <-]. repeat split. exists []. by rewrite app_nil_r. }
  destruct (if bool_decide (filter_field g ∈ ["month"; "maxAttendees"])
            then int_value int (filter_value g)
            else inr (value_of (filter_value g))) as [e|v] eqn:Hv; [done|].
  intros H. destruct (IH _ _ H) as (Hkind & Horders & nodes & Hnodes & Hall).
  split; [done|]. split; [done|]. simpl in Hnodes.
  eexists (_ :: nodes). rewrite Hnodes, <-app_assoc. split; [done|].
  constructor; [|done]. unfold node_of. simpl.
  split; [done|]. split; [done|].
  case_bool_decide; [|by simplify_eq].
  unfold int_value in Hv. destruct (filter_value g) as [s|]; [|done].
  destruct (int s) as [n|] eqn:Hn; [|done]. simplify_eq. by exists s, n.
Qed.

Lemma getQuery_loop_succeeds fs : ∀ q,
  (∀ g, g ∈ fs -> filter_field g ∈ ["month"; "maxAttendees"] ->
        ∃ s n, filter_value g = Some s ∧ int s = Some n) ->
  ∃ q', _getQuery_loop int fs q = inr q'.
Proof.
  induction fs as [|g fs IH]; intros q Hnum; simpl; [by eexists|].
  case_bool_decide as Hg.
  - destruct (Hnum g) as (s & n & Hs & Hn); [by left|done|].
    unfold int_value. rewrite Hs, Hn. apply IH.
    intros g' Hg'. apply Hnum. by right.
  - apply IH. intros g' Hg'. apply Hnum. by right.
Qed.


Lemma getQuery_run filters q :
  _getQuery int filters = inr q ->
  ∃ iq gs,
    _formatFilters filters = inr (iq, gs)
    ∧ Forall2 formats filters gs
    ∧ Forall2 (node_of int) gs (query_filters q)
    ∧ query_kind q = "Conference"
    ∧ query_orders q
      = match iq with Some x => [x; "name"] | None => ["name"] end
    ∧ (∀ g, g ∈ gs -> filter_operator g ≠ "=" ->
            iq = Some (filter_field g))
    ∧ (iq = None
       ∨ ∃ f, f ∈ filters ∧ inequality_filter f ∧ field_of f = iq).
Proof.
  unfold _getQuery.
  destruct (_formatFilters filters) as [e|[iq gs]] eqn:E; [done|].
  intros Hloop. exists iq, gs. split; [done|].
  unfold _formatFilters in E.
  destruct (loop_result _ _ _ _ _ E) as (gs' & -> & Hformats & Hiq).
  destruct (loop_inequality_field _ _ _ _ _ E) as (gs'' & Hgs & Hineq).
  simpl in Hgs. subst gs''. simpl in *.
  destruct (getQuery_loop_result _ _ _ Hloop)
    as (Hkind & Horders & nodes & Hnodes & Hall).
  assert (truthy iq = match iq with Some _ => true | None => false end)
    as Htruthy.
  { destruct Hiq as [->|(f & _ & _ & Hf)]; [done|].
    destruct iq as [x|]; [|done]. simpl.
    by rewrite bool_decide_eq_false_2 by (by eapply field_of_nonempty). }
  split; [done|]. split.
  { replace (query_filters q) with nodes; [done|].
    rewrite Hnodes. by destruct (negb (truthy iq)). }
  split.
  { rewrite Hkind. by destruct (negb (truthy iq)). }
  split.
  { rewrite Horders, Htruthy. by destruct iq. }
  split; [done|].
  destruct Hiq as [->|?]; [by left|by right].
Qed.

(** X17. [_getQuery] raises [BadRequestException] exactly for the filter
    lists that [_formatFilters] refuses (a field or operator outside the
    tables, or inequalities on two fields), whatever the values of the
    filters: the values are converted only once all filters are accepted. It
    raises nothing but [BadRequestException], [ValueError] and
    [TypeError]. *)
Theorem getQuery_bad_request filters :
  (_getQuery int filters = inl BadRequestException <-> rejected filters)
  ∧ (∀ e, _getQuery int filters = inl e ->
          e = BadRequestException ∨ e = ValueError ∨ e = TypeError).
Proof.
  rewrite <-formatFilters_rejects. unfold _getQuery.
  destruct (_formatFilters filters) as [e|[iq gs]] eqn:E.
  - rewrite (loop_only_bad_request _ _ _ _ E). split; [done|].
    intros ? [= <-]. by left.
  - split.
    + split; [|done]. intros H.
      by destruct (getQuery_loop_errors _ _ _ H).
    + intros e H. right. by eapply getQuery_loop_errors.
Qed.


(** X19. [_getQuery] returns a query exactly when [_formatFilters] accepts
    the filters and every filter on [month] or [maxAttendees] has a value
    that [int] converts. *)
Theorem getQuery_succeeds_iff filters :
  (∃ q, _getQuery int filters = inr q)
  <-> ¬ rejected filters
     ∧ ∀ f, f ∈ filters -> numeric_filter f ->
            ∃ s n, ConferenceQueryForm.value f = Some s ∧ int s = Some n.
Proof.
  split.
  - intros [q Hrun].
    destruct (getQuery_run _ _ Hrun)
      as (iq & gs & E & Hformats & Hnodes & _).
    split.
    { rewrite <-formatFilters_rejects. by rewrite E. }
    intros f Hf Hnum.
    apply list_elem_of_lookup in Hf as [i Hi].
    destruct (Forall2_lookup_l _ _ _ _ _ Hformats Hi)
      as (g & Hg & Hfld & Hop & Hval).
    destruct (Forall2_lookup_l _ _ _ _ _ Hnodes Hg)
      as (node & _ & Hname & _ & Hvalue).
    rewrite bool_decide_eq_true_2 in Hvalue.
    + destruct Hvalue as (s & n & Hs & Hn & _). exists s, n.
      by rewrite <-Hval.
    + rewrite Hname. unfold numeric_filter in Hnum. rewrite Hfld in Hnum.
      destruct Hnum as [[= <-]|[= <-]]; [by left|by right; left].
  - intros [Hok Hnum]. unfold _getQuery.
    destruct (_formatFilters filters) as [e|[iq gs]] eqn:E.
    { destruct Hok. apply formatFilters_rejects.
      by rewrite <-(loop_only_bad_request _ _ _ _ E). }
    unfold _formatFilters in E.
    destruct (loop_result _ _ _ _ _ E) as (gs' & -> & Hformats & _).
    apply getQuery_loop_succeeds. simpl. intros g Hg Hfield.
    apply list_elem_of_lookup in Hg as [i Hi].
    destruct (Forall2_lookup_r _ _ _ _ _ Hformats Hi)
      as (f & Hf & Hfld & Hop & Hval).
    rewrite Hval. apply Hnum; [by eapply list_elem_of_lookup_2|].
    unfold numeric_filter. rewrite Hfld.
    apply elem_of_cons in Hfield as [->|Hfield]; [by left|].
    apply list_elem_of_singleton in Hfield as ->. by right.
Qed.

End QueryProperties.


(** A month that is no number is refused once the filters are accepted; a
    filter outside the tables is refused first. *)
Example month_must_be_a_number :
  _getQuery int_decimal
    [ConferenceQueryForm.mk (Some "MONTH") (Some "EQ") (Some "June")]
  = inl ValueError
  ∧ _getQuery int_decimal
      [ConferenceQueryForm.mk (Some "MONTH") (Some "EQ") None]
    = inl TypeError
  ∧ _getQuery int_decimal
      [ConferenceQueryForm.mk (Some "MONTH") (Some "EQ") (Some "June");
       ConferenceQueryForm.mk (Some "COUNTRY") (Some "EQ") (Some "France")]
    = inl BadRequestException.
Proof. repeat split; reflexivity. Qed.

(** ** The caches, once more *)

Lemma append_empty_r (s : string) : s +:+ "" = s.
Proof.
  induction s as [|x s IH]; [done|].
  change (String x (s +:+ "") = String x s). by f_equal.
Qed.

Lemma occurs_in_join sep x l : x ∈ l -> occurs_in x (join sep l).
Proof.
  unfold join. induction l as [|y l IH]; [by rewrite elem_of_nil|].
  rewrite elem_of_cons. intros Hx.
  destruct l as [|z l].
  - destruct Hx as [->|Hx]; [|by apply elem_of_nil in Hx].
    exists "", "". simpl. by rewrite append_empty_r.
  - change (String.concat sep (y :: z :: l))
      with (y +:+ sep +:+ String.concat sep (z :: l)).
    destruct Hx as [->|Hx].
    + by exists "", (sep +:+ String.concat sep (z :: l)).
    + destruct (IH Hx) as (before & after & ->).
      exists (y +:+ sep +:+ before), after.
      by rewrite !append_assoc.
Qed.

Lemma occurs_in_format2 x a b : occurs_in x b -> occurs_in x (format2 a b).
Proof.
  intros (before & after & ->). unfold format2.
  exists (a +:+ " " +:+ before), after. by rewrite !append_assoc.
Qed.

(** X20. When some conference has one to five free seats,
    [_cacheAnnouncement] stores and returns a text in which the name of
    every such conference occurs, and [getAnnouncement] then returns that
    text. *)
Theorem announcement_lists_the_names
    (fetch_order : list (Key * Conference.t) -> list (Key * Conference.t))
    (st : State) (k : Key) (c : Conference.t) :
  (∀ l, fetch_order l ≡ₚ l) ->
  datastore st !! k = Some (EConference c) ->
  0 < Conference.seatsAvailable c <= 5 ->
  ∃ text,
    _cacheAnnouncement fetch_order st
    = (set_memcache (<[MEMCACHE_ANNOUNCEMENTS_KEY := text]> (memcache st)) st,
       inr text)
    ∧ occurs_in (Conference.name c) text
    ∧ getAnnouncement (_cacheAnnouncement fetch_order st).1
      = ((_cacheAnnouncement fetch_order st).1, inr text).
Proof.
  intros Hperm Hk Hseats.
  set (confs :=
         fetch_order (filter nearly_sold_out (conferences (datastore st)))).
  assert ((k, c) ∈ confs) as Hin.
  { unfold confs. rewrite Hperm, list_elem_of_filter, elem_of_conferences.
    split; [|done]. unfold nearly_sold_out. simpl. lia. }
  exists (announcement_of confs).
  assert (_cacheAnnouncement fetch_order st
          = (set_memcache
               (<[MEMCACHE_ANNOUNCEMENTS_KEY := announcement_of confs]>
                  (memcache st)) st,
             inr (announcement_of confs))) as Hrun.
  { unfold _cacheAnnouncement. fold nearly_sold_out confs.
    destruct confs as [|kc confs'] eqn:E; [by apply elem_of_nil in Hin|].
    done. }
  rewrite Hrun. split; [done|]. split.
  - apply occurs_in_format2, occurs_in_join.
    apply (list_elem_of_fmap_2 (fun kc => Conference.name kc.2) _ (k, c) Hin).
  - apply getAnnouncement_cached; [apply lookup_insert_eq|].
    by apply format2_nonempty.
Qed.

Lemma announcement_lists_the_names_witness :
  ∃ text,
    (_cacheAnnouncement fetch_by_seats st_four).2 = inr text
    ∧ occurs_in "RustConf" text.
Proof.
  destruct (announcement_lists_the_names fetch_by_seats st_four
              (ndb_Key "Conference" (inr 3) (profile_key alice))
              (conference "RustConf" 10 5))
    as (text & Hrun & Hname & _).
  - exact fetch_by_seats_Permutation.
  - vm_compute. reflexivity.
  - simpl. lia.
  - exists text. split; [|exact Hname]. rewrite Hrun. reflexivity.
Defined.

(** X21. The two caches keep apart: [_cacheAnnouncement] changes nothing but
    the announcements entry of memcache, so [getFeaturedSpeaker] answers as
    before, and [_cacheFeaturedSpeaker] changes nothing but the
    featured-speaker entry, so [getAnnouncement] answers as before. Neither
    writes to the datastore. *)
Theorem caches_keep_apart
    (fetch_order : list (Key * Conference.t) -> list (Key * Conference.t))
    (speakerKey conferenceKey : Key) (st : State) :
  let st1 := (_cacheAnnouncement fetch_order st).1 in
  let st2 := (_cacheFeaturedSpeaker speakerKey conferenceKey st).1 in
  (st1 = set_memcache (memcache st1) st
   ∧ (∀ k, k ≠ MEMCACHE_ANNOUNCEMENTS_KEY ->
           memcache st1 !! k = memcache st !! k)
   ∧ getFeaturedSpeaker st1 = (st1, (getFeaturedSpeaker st).2))
  ∧ (st2 = set_memcache (memcache st2) st
     ∧ (∀ k, k ≠ MEMCACHE_FEATURED_SPEAKER_KEY ->
             memcache st2 !! k = memcache st !! k)
     ∧ getAnnouncement st2 = (st2, (getAnnouncement st).2)).
Proof.
  intros st1 st2. split.
  - assert (memcache st1 !! MEMCACHE_FEATURED_SPEAKER_KEY
            = memcache st !! MEMCACHE_FEATURED_SPEAKER_KEY
            ∧ st1 = set_memcache (memcache st1) st
            ∧ ∀ k, k ≠ MEMCACHE_ANNOUNCEMENTS_KEY ->
                   memcache st1 !! k = memcache st !! k) as (Hf & Hst & Hk).
    { subst st1. unfold _cacheAnnouncement.
      destruct (fetch_order _) as [|kc confs]; simpl.
      - split; [by rewrite lookup_delete_ne|]. split; [done|].
        intros k Hk. by rewrite lookup_delete_ne.
      - split; [by rewrite lookup_insert_ne|]. split; [done|].
        intros k Hk. by rewrite lookup_insert_ne. }
    split; [done|]. split; [done|].
    unfold getFeaturedSpeaker, bind, memcache_get. rewrite Hf.
    by destruct (truthy _).
  - assert (memcache st2 !! MEMCACHE_ANNOUNCEMENTS_KEY
            = memcache st !! MEMCACHE_ANNOUNCEMENTS_KEY
            ∧ st2 = set_memcache (memcache st2) st
            ∧ ∀ k, k ≠ MEMCACHE_FEATURED_SPEAKER_KEY ->
                   memcache st2 !! k = memcache st !! k) as (Hf & Hst & Hk).
    { subst st2. unfold _cacheFeaturedSpeaker, bind, ndb_get,
        get_speaker_name, memcache_set, ret, raise.
      destruct (1 <? _); simpl; [|by destruct st].
      destruct (datastore st !! speakerKey) as [[]|]; simpl;
        try (by destruct st).
      split; [by rewrite lookup_insert_ne|]. split; [done|].
      intros k Hk. by rewrite lookup_insert_ne. }
    split; [done|]. split; [done|].
    unfold getAnnouncement, bind, memcache_get. rewrite Hf.
    by destruct (truthy _).
Qed.

(** X22. When the speaker has more than one session under the conference but
    no speaker is stored under the speaker key, [_cacheFeaturedSpeaker]
    raises [AttributeError] and caches nothing. *)
Theorem featured_speaker_needs_the_speaker st speakerKey conferenceKey :
  1 < session_count conferenceKey speakerKey (datastore st) ->
  (∀ sp, datastore st !! speakerKey ≠ Some (ESpeaker sp)) ->
  _cacheFeaturedSpeaker speakerKey conferenceKey st = (st, inl AttributeError).
Proof.
  intros Hn Hsp. unfold _cacheFeaturedSpeaker, bind.
  destruct (Z.ltb_spec 1 (session_count conferenceKey speakerKey
                                        (datastore st))); [|lia].
  unfold ndb_get.
  destruct (datastore st !! speakerKey) as [[| | |sp]|]; try done.
  by destruct (Hsp sp).
Qed.

Lemma featured_speaker_needs_the_speaker_witness :
  _cacheFeaturedSpeaker ada_key pycon_key st_no_ada
  = (st_no_ada, inl AttributeError).
Proof.
  apply (featured_speaker_needs_the_speaker st_no_ada ada_key pycon_key).
  - vm_compute. reflexivity.
  - intros sp H. vm_compute in H. discriminate H.
Defined.

Lemma sessions_insert_session (d : gmap Key Entity) i s :
  d !! i = None ->
  sessions (<[i := ESession s]> d) ≡ₚ (i, s) :: sessions d.
Proof.
  intros Hi. unfold sessions.
  rewrite (omap_insert_Some _ _ _ _ s) by done.
  apply map_to_list_insert. by rewrite lookup_omap, Hi.
Qed.

Lemma session_count_insert
    (d : gmap Key Entity) (confKey speakerKey k : Key) (s : Session.t) :
  d !! k = None ->
  session_count confKey speakerKey (<[k := ESession s]> d)
  = session_count confKey speakerKey d
    + (if decide (confKey `prefix_of` k
                  ∧ Session.speakerKey s = Some speakerKey)
       then 1 else 0).
Proof.
  intros Hk. unfold session_count.
  rewrite (sessions_insert_session _ _ _ Hk), filter_cons. simpl.
  case_decide; simpl; lia.
Qed.

(** X23. Storing a session under a key that was not in use raises the
    session count of a speaker at a conference by one when the key is under
    the conference key and the session names the speaker, and leaves it as
    it was otherwise: sessions at other conferences and of other speakers
    do not count, nor do entities of another kind. *)
Theorem new_session_counts
    (d : gmap Key Entity) (confKey speakerKey k : Key) (s : Session.t)
    (e : Entity) :
  d !! k = None ->
  session_count confKey speakerKey (<[k := ESession s]> d)
  = session_count confKey speakerKey d
    + (if decide (confKey `prefix_of` k
                  ∧ Session.speakerKey s = Some speakerKey)
       then 1 else 0)
  ∧ ((∀ s', e ≠ ESession s') ->
     session_count confKey speakerKey (<[k := e]> d)
     = session_count confKey speakerKey d).
Proof.
  intros Hk. split; [by apply session_count_insert|].
  intros He. unfold session_count, sessions.
  rewrite omap_insert_None by (destruct e; try done; by destruct (He s0)).
  rewrite delete_id; [done|]. by rewrite lookup_omap, Hk.
Qed.

Lemma new_session_counts_witness :
  session_count pycon_key grace_key
    (<[session_key pycon_key 25 := ESession (talk grace_key)]>
       (datastore st_sessions))
  = session_count pycon_key grace_key (datastore st_sessions)
    + (if decide (pycon_key `prefix_of` session_key pycon_key 25
                  ∧ Session.speakerKey (talk grace_key) = Some grace_key)
       then 1 else 0).
Proof.
  apply (new_session_counts (datastore st_sessions) pycon_key grace_key
           (session_key pycon_key 25) (talk grace_key) (ESpeaker grace)).
  vm_compute. reflexivity.
Defined.

(** X24. A speaker with one session under a conference is not featured: the
    recomputation caches nothing. Once a second session of the speaker is
    stored under the conference, the recomputation caches the text with the
    speaker's name and [getFeaturedSpeaker] returns it. *)
Theorem second_session_features_the_speaker
    (st : State) (confKey speakerKey k : Key) (s : Session.t)
    (sp : Speaker.t) :
  datastore st !! k = None ->
  confKey `prefix_of` k ->
  Session.speakerKey s = Some speakerKey ->
  session_count confKey speakerKey (datastore st) = 1 ->
  datastore st !! speakerKey = Some (ESpeaker sp) ->
  let st1 := (ndb_put k (ESession s) st).1 in
  _cacheFeaturedSpeaker speakerKey confKey st = (st, inr "")
  ∧ _cacheFeaturedSpeaker speakerKey confKey st1
    = (set_memcache
         (<[MEMCACHE_FEATURED_SPEAKER_KEY := featured sp]> (memcache st1)) st1,
       inr (featured sp))
  ∧ getFeaturedSpeaker (_cacheFeaturedSpeaker speakerKey confKey st1).1
    = ((_cacheFeaturedSpeaker speakerKey confKey st1).1, inr (featured sp)).
Proof.
  intros Hk Hprefix Hs Hone Hsp st1.
  assert (_cacheFeaturedSpeaker speakerKey confKey st1
          = (set_memcache
               (<[MEMCACHE_FEATURED_SPEAKER_KEY := featured sp]>
                  (memcache st1)) st1,
             inr (featured sp))) as Hrun.
  { apply cacheFeaturedSpeaker_featured.
    - subst st1. simpl. rewrite (session_count_insert _ _ _ _ _ Hk).
      rewrite decide_True by done. lia.
    - subst st1. simpl. rewrite lookup_insert_ne; [done|].
      intros <-. by rewrite Hk in Hsp. }
  split; [apply cacheFeaturedSpeaker_nothing; lia|].
  split; [done|]. rewrite Hrun. simpl.
  apply getFeaturedSpeaker_cached; [apply lookup_insert_eq|].
  by apply format2_nonempty.
Qed.

Lemma second_session_features_the_speaker_witness :
  _cacheFeaturedSpeaker grace_key pycon_key st_sessions = (st_sessions, inr "")
  ∧ (_cacheFeaturedSpeaker grace_key pycon_key
       (ndb_put (session_key pycon_key 25) (ESession (talk grace_key))
          st_sessions).1).2
    = inr (featured grace).
Proof.
  destruct (second_session_features_the_speaker st_sessions pycon_key
              grace_key (session_key pycon_key 25) (talk grace_key) grace)
    as (Hbefore & Hafter & _).
  - vm_compute. reflexivity.
  - exists [("Session", inr 25)]. reflexivity.
  - reflexivity.
  - vm_compute. reflexivity.
  - vm_compute. reflexivity.
  - split; [exact Hbefore|]. rewrite Hafter. reflexivity.
Defined.

(** ** Reading conferences *)

Lemma Key_parent_ndb_Key kind id parent :
  parent ≠ [] -> Key_parent (ndb_Key kind id parent) = Some parent.
Proof.
  intros Hne. unfold ndb_Key, Key_parent.
  destruct parent as [|x [|y parent]]; [done|done|].
  change ((x :: y :: parent) ++ [(kind, id)])
    with (x :: y :: (parent ++ [(kind, id)])).
  f_equal. change (x :: y :: (parent ++ [(kind, id)]))
    with ((x :: y :: parent) ++ [(kind, id)]).
  apply removelast_last.
Qed.

Lemma elem_of_conferences_of (d : gmap Key Entity) p_key k c :
  (k, c) ∈ conferences_of p_key d
  <-> d !! k = Some (EConference c) ∧ p_key `prefix_of` k.
Proof.
  unfold conferences_of. rewrite list_elem_of_filter, elem_of_conferences.
  simpl. tauto.
Qed.

Section ReadingProperties.

Variable strptime_date : string -> option Date.
Variable _copyConferenceToForm :
  Key -> Entity -> string -> Exception + ConferenceForm.t.
Variable fetch_order :
  list (Key * Conference.t) -> list (Key * Conference.t).

Lemma getConference_stored st wsck e parent :
  datastore st !! wsck = Some e ->
  Key_parent wsck = Some parent ->
  getConference _copyConferenceToForm wsck st
  = match datastore st !! parent with
    | Some (EProfile p) =>
      (st, _copyConferenceToForm wsck e (Profile.displayName p))
    | _ => (st, inl AttributeError)
    end.
Proof.
  intros He Hparent. unfold getConference, bind, ndb_get.
  rewrite He, Hparent.
  by destruct (datastore st !! parent) as [[]|].
Qed.

(** X25. [getConference] asks for no user and changes nothing. It raises
    [NotFoundException] when nothing is stored under the key, and
    [AttributeError] when the key has no parent or no profile is stored under
    the parent key; a form is returned only as the copy of the stored entity
    with the display name of the profile under the parent key. *)
Theorem getConference_reads wsck st :
  let run := getConference _copyConferenceToForm wsck st in
  run.1 = st
  ∧ (datastore st !! wsck = None -> run.2 = inl NotFoundException)
  ∧ (is_Some (datastore st !! wsck) ->
     (∀ parent p, Key_parent wsck = Some parent ->
                  datastore st !! parent ≠ Some (EProfile p)) ->
     run.2 = inl AttributeError)
  ∧ (∀ form, run.2 = inr form ->
             ∃ e parent p,
               datastore st !! wsck = Some e
               ∧ Key_parent wsck = Some parent
               ∧ datastore st !! parent = Some (EProfile p)
               ∧ _copyConferenceToForm wsck e (Profile.displayName p)
                 = inr form).
Proof.
  intros run. subst run.
  destruct (datastore st !! wsck) as [e|] eqn:He.
  2:{ unfold getConference, bind, ndb_get. rewrite He. simpl.
      by repeat split. }
  destruct (Key_parent wsck) as [parent|] eqn:Hparent.
  2:{ unfold getConference, bind, ndb_get. rewrite He, Hparent. simpl.
      by repeat split. }
  rewrite (getConference_stored _ _ _ _ He Hparent).
  destruct (datastore st !! parent) as [[p| | |]|] eqn:Hp; simpl;
    try (by repeat split).
  repeat split; try done.
  - intros _ Hno. by destruct (Hno parent p).
  - intros form Hform. by exists e, parent, p.
Qed.

(** X26. A conference that [_createConferenceObject] has stored can be read
    with [getConference] only when its organizer had a profile: for an
    organizer without one (the creation creates none) [getConference] raises
    [AttributeError]; for an organizer with a profile it returns the copy of
    the conference with the organizer's display name. *)
Theorem created_conference_needs_a_profile u request st st' form :
  _createConferenceObject strptime_date (Some u) request st
  = (st', inr form) ->
  let c_key := ndb_Key "Conference" (inr (next_id st)) (profile_key u) in
  (datastore st !! profile_key u = None ->
   getConference _copyConferenceToForm c_key st' = (st', inl AttributeError))
  ∧ (∀ p, datastore st !! profile_key u = Some (EProfile p) ->
          ∃ c, datastore st' !! c_key = Some (EConference c)
               ∧ getConference _copyConferenceToForm c_key st'
                 = (st', _copyConferenceToForm c_key (EConference c)
                           (Profile.displayName p))).
Proof.
  intros Hrun c_key.
  destruct (created_run _ _ _ _ _ _ Hrun)
    as (? & name & v1 & v2 & [= <-] & Hname & E1 & E2 & Hform & ->).
  fold c_key.
  assert (Key_parent c_key = Some (profile_key u)) as Hparent
    by (by apply Key_parent_ndb_Key).
  assert (c_key ≠ profile_key u) as Hne by done.
  split.
  - intros Hnone.
    erewrite getConference_stored; [|apply lookup_insert_eq|done].
    simpl. by rewrite lookup_insert_ne, Hnone by done.
  - intros p Hp. eexists. split; [apply lookup_insert_eq|].
    erewrite getConference_stored; [|apply lookup_insert_eq|done].
    simpl. by rewrite lookup_insert_ne, Hp by done.
Qed.

(** X27. [getConferencesCreated] changes nothing. It raises
    [UnauthorizedException] without a signed-in user and [AttributeError] for
    a caller without a profile, whatever conferences there are; for a caller
    with a profile it returns the copies of the conferences under the
    caller's profile key, with the caller's display name. *)
Theorem conferences_created_guard user st :
  let run :=
    getConferencesCreated _copyConferenceToForm fetch_order user st in
  run.1 = st
  ∧ (user = None -> run.2 = inl UnauthorizedException)
  ∧ (∀ u, user = Some u ->
          (∀ p, datastore st !! profile_key u ≠ Some (EProfile p)) ->
          run.2 = inl AttributeError)
  ∧ (∀ u p, user = Some u ->
            datastore st !! profile_key u = Some (EProfile p) ->
            run.2 = copy_conferences _copyConferenceToForm
                      (Profile.displayName p)
                      (fetch_order
                         (conferences_of (profile_key u) (datastore st)))).
Proof.
  intros run. subst run. unfold getConferencesCreated, bind, ndb_get.
  destruct user as [u|]; [|by repeat split]. fold (profile_key u).
  destruct (datastore st !! profile_key u) as [[p| | |]|] eqn:Hp; simpl;
    repeat split; try done.
  all: try (intros ? [= <-] Hno; by destruct (Hno p)).
  all: try (intros ? ? [= <-] Hq; rewrite Hp in Hq; by simplify_eq).

Qed.

(** X28. A conference that [_createConferenceObject] has stored for a caller
    is among the conferences that the query of [getConferencesCreated]
    selects for that caller, and not among those of a user with another
    id. *)
Theorem created_conference_is_listed u u' request st st' form :
  (∀ l, fetch_order l ≡ₚ l) ->
  _createConferenceObject strptime_date (Some u) request st
  = (st', inr form) ->
  let c_key := ndb_Key "Conference" (inr (next_id st)) (profile_key u) in
  ∃ c, datastore st' !! c_key = Some (EConference c)
       ∧ (c_key, c)
         ∈ fetch_order (conferences_of (profile_key u) (datastore st'))
       ∧ (user_id u' ≠ user_id u ->
          (c_key, c)
          ∉ fetch_order (conferences_of (profile_key u') (datastore st'))).
Proof.
  intros Hperm Hrun c_key.
  destruct (created_run _ _ _ _ _ _ Hrun)
    as (? & name & v1 & v2 & [= <-] & Hname & E1 & E2 & Hform & ->).
  fold c_key. simpl. eexists. split; [apply lookup_insert_eq|].
  rewrite !Hperm, !elem_of_conferences_of, !lookup_insert_eq. split.
  - split; [done|]. by eexists.
  - intros Hu [_ [k Hk]]. apply Hu.
    unfold c_key, ndb_Key, profile_key in Hk. simpl in Hk. by simplify_eq.
Qed.

End ReadingProperties.

Lemma created_conference_needs_a_profile_witness :
  getConference example_conference_form pycon_key st_pycon
  = (st_pycon, inl AttributeError).
Proof.
  destruct (created_conference_needs_a_profile strptime_ymd
              example_conference_form alice pycon_form st_empty st_pycon
              (ConferenceForm.mk (Some "PyCon") (Some "alice@example.com")
                 ["Default"; "Topic"] (Some "Default City")
                 (Some "2015-10-05T00:00:00") (Some 2) (Some 2) None
                 None None)) as [Hnone _].
  - reflexivity.
  - apply Hnone. reflexivity.
Defined.

Lemma created_conference_is_listed_witness :
  ∃ c, datastore st_pycon !! pycon_key = Some (EConference c)
       ∧ (pycon_key, c)
         ∈ fetch_by_seats (conferences_of (profile_key alice)
                             (datastore st_pycon))
       ∧ (pycon_key, c)
         ∉ fetch_by_seats (conferences_of (profile_key bob)
                             (datastore st_pycon)).
Proof.
  destruct (created_conference_is_listed strptime_ymd fetch_by_seats
              alice bob pycon_form st_empty st_pycon
              (ConferenceForm.mk (Some "PyCon") (Some "alice@example.com")
                 ["Default"; "Topic"] (Some "Default City")
                 (Some "2015-10-05T00:00:00") (Some 2) (Some 2) None
                 None None))
    as (c & Hc & Hin & Hout).
  - exact fetch_by_seats_Permutation.
  - reflexivity.
  - exists c. split; [exact Hc|]. split; [exact Hin|].
    apply Hout. discriminate.
Defined.

(** With a profile, Alice reads her conference. *)
Example alice_reads_her_conference :
  (getConference example_conference_form pycon_key
     (_createConferenceObject strptime_ymd (Some alice) pycon_form
        st_alice).1).2
  = inr (ConferenceForm.mk (Some "PyCon") None [] None None None None
           None (Some pycon_key) (Some "alice")).
Proof. vm_compute. reflexivity. Qed.

(** ** The conferences of a caller *)

Lemma comprehension_fmap {A B C} (f : B -> Exception + C) (h : A -> B) l :
  comprehension f (h <$> l) = comprehension (fun a => f (h a)) l.
Proof.
  induction l as [|a l IH]; [done|].
  rewrite fmap_cons. cbn [comprehension]. by rewrite IH.
Qed.

Lemma comprehension_ext {A B} (f g : A -> Exception + B) l :
  (∀ a, a ∈ l -> f a = g a) -> comprehension f l = comprehension g l.
Proof.
  induction l as [|a l IH]; intros Hfg; simpl; [done|].
  rewrite (Hfg a) by (by left). rewrite IH; [done|].
  intros b Hb. apply Hfg. by right.
Qed.

Lemma comprehension_values {A B} (f : A -> Exception + B) (g : A -> B) l :
  (∀ a, a ∈ l -> f a = inr (g a)) -> comprehension f l = inr (g <$> l).
Proof.
  induction l as [|a l IH]; intros Hfg; simpl; [done|].
  rewrite (Hfg a) by (by left). rewrite IH; [done|].
  intros b Hb. apply Hfg. by right.
Qed.

Lemma comprehension_inr {A B} (f : A -> Exception + B) l bs :
  comprehension f l = inr bs -> Forall2 (fun a b => f a = inr b) l bs.
Proof.
  revert bs. induction l as [|a l IH]; intros bs; simpl.
  - intros [= <-]. constructor.
  - destruct (f a) as [e|b] eqn:Hb; [done|].
    destruct (comprehension f l) as [e|bs']; [done|].
    intros [= <-]. constructor; [done|by apply IH].
Qed.

Lemma comprehension_raises {A B} (f : A -> Exception + B) l e :
  comprehension f l = inl e -> ∃ a, a ∈ l ∧ f a = inl e.
Proof.
  induction l as [|a l IH]; simpl; [done|].
  destruct (f a) as [e'|b] eqn:Hb.
  - intros [= <-]. exists a. split; [by left|done].
  - destruct (comprehension f l) as [e'|bs]; [|done].
    intros [= <-]. destruct (IH eq_refl) as (a' & Ha' & Hf).
    exists a'. split; [by right|done].
Qed.

Lemma organiser_key_raises conf e :
  organiser_key conf = inl e -> e = AttributeError.
Proof. destruct conf as [[k []]|]; simpl; by intros [= <-]. Qed.

Lemma names_loop_raises profiles : ∀ names e,
  names_loop profiles names = inl e -> e = AttributeError.
Proof.
  induction profiles as [|[[k []]|] profiles IH]; intros names e; simpl;
    first [done | by intros [= <-] | apply IH].
Qed.

Lemma names_loop_needs_profiles profiles : ∀ names names',
  names_loop profiles names = inr names' ->
  ∀ profile, profile ∈ profiles -> ∃ k p, profile = Some (k, EProfile p).
Proof.
  induction profiles as [|profile profiles IH]; intros names names' Hrun x Hx.
  { by apply elem_of_nil in Hx. }
  simpl in Hrun. destruct profile as [[k [p| | |]]|]; try done.
  apply elem_of_cons in Hx as [->|Hx]; [by eexists _, _|].
  by eapply IH.
Qed.

(** The names that the loop collects for the organizers [uids]. *)
Lemma names_loop_result (d : gmap Key Entity) uids : ∀ names,
  (∀ uid, uid ∈ uids ->
          ∃ q, d !! ndb_Key "Profile" (inl uid) [] = Some (EProfile q)) ->
  (∀ uid dn, names !! inl uid = Some dn ->
             ∃ q, d !! ndb_Key "Profile" (inl uid) [] = Some (EProfile q)
                  ∧ dn = Profile.displayName q) ->
  ∃ names',
    names_loop
      ((fun uid => pair (ndb_Key "Profile" (inl uid) [])
                     <$> d !! ndb_Key "Profile" (inl uid) []) <$> uids)
      names
    = inr names'
    ∧ (∀ uid dn, names' !! inl uid = Some dn ->
                 ∃ q, d !! ndb_Key "Profile" (inl uid) [] = Some (EProfile q)
                      ∧ dn = Profile.displayName q)
    ∧ (∀ k, is_Some (names !! k) -> is_Some (names' !! k))
    ∧ (∀ uid, uid ∈ uids -> is_Some (names' !! inl uid)).
Proof.
  induction uids as [|uid uids IH]; intros names Hprofiles Hnames.
  { exists names. split; [done|]. split; [done|]. split; [done|].
    intros uid Huid. by apply elem_of_nil in Huid. }
  destruct (Hprofiles uid) as [q Hq]; [by left|].
  cbn [fmap list_fmap names_loop]. rewrite Hq. simpl.
  change (Key_id (ndb_Key "Profile" (inl uid) [])) with (@inl string Z uid).
  destruct (IH (<[inl uid := Profile.displayName q]> names))
    as (names' & Hrun & Hsound & Hkeeps & Hcovers).
  - intros uid' Huid'. apply Hprofiles. by right.
  - intros uid' dn Hdn.
    apply lookup_insert_Some in Hdn as [[[= <-] <-]|[_ Hdn]]; [by exists q|].
    by apply Hnames.
  - exists names'. split; [done|]. split; [done|]. split.
    + intros k Hk. apply Hkeeps.
      destruct (decide (k = inl uid)) as [->|Hne].
      * rewrite lookup_insert_eq. by eexists.
      * by rewrite lookup_insert_ne.
    + intros uid' [->|Huid']%elem_of_cons; [|by apply Hcovers].
      apply Hkeeps. rewrite lookup_insert_eq. by eexists.
Qed.

Section AttendingProperties.

Variable _copyConferenceToForm :
  Key -> Entity -> string -> Exception + ConferenceForm.t.

Lemma getConferencesToAttend_run st u p :
  caller_profile st u = Some p ->
  getConferencesToAttend _copyConferenceToForm (Some u) st
  = let st' := with_profile st u p in
    let conferences :=
      (fun k => pair k <$> datastore st' !! k)
        <$> Profile.conferenceKeysToAttend p in
    match comprehension organiser_key conferences with
    | inl e => (st', inl e)
    | inr organisers =>
      match names_loop
              ((fun k => pair k <$> datastore st' !! k) <$> organisers) ∅ with
      | inl e => (st', inl e)
      | inr names =>
        (st', comprehension (form_with_name _copyConferenceToForm names)
                conferences)
      end
    end.
Proof.
  intros Hp. unfold getConferencesToAttend, bind.
  rewrite (getProfileFromUser_spec _ _ _ Hp). simpl.
  destruct (comprehension organiser_key _) as [e|organisers]; [done|].
  simpl. by destruct (names_loop _ _).
Qed.

(** X29. [getConferencesToAttend] stores the caller's profile if there was
    none. When every key of the caller's attending list is the key of a
    stored conference whose organizer has a profile, it returns one form per
    key, in the order of the list: the copy of the conference with the
    display name of its organizer. *)
Theorem conferences_to_attend_follow_the_list st u p :
  caller_profile st u = Some p ->
  let st' := with_profile st u p in
  (∀ w, w ∈ Profile.conferenceKeysToAttend p ->
        ∃ c q,
          datastore st' !! w = Some (EConference c)
          ∧ datastore st'
              !! ndb_Key "Profile" (inl (Conference.organizerUserId c)) []
            = Some (EProfile q)) ->
  getConferencesToAttend _copyConferenceToForm (Some u) st
  = (st',
     comprehension (attended_form _copyConferenceToForm (datastore st'))
       (Profile.conferenceKeysToAttend p)).
Proof.
  intros Hp st' Hall. rewrite (getConferencesToAttend_run _ _ _ Hp).
  fold st'. cbv zeta.
  set (d := datastore st') in *.
  set (keys := Profile.conferenceKeysToAttend p) in *.
  set (uid_of := fun w : Key =>
         match d !! w with
         | Some (EConference c) => Conference.organizerUserId c
         | _ => ""
         end).
  rewrite comprehension_fmap.
  rewrite (comprehension_values _
             (fun w => ndb_Key "Profile" (inl (uid_of w)) [])).
  2:{ intros w Hw. destruct (Hall w Hw) as (c & q & Hc & Hq).
      unfold uid_of. by rewrite Hc. }
  replace ((fun k => pair k <$> d !! k)
             <$> ((fun w => ndb_Key "Profile" (inl (uid_of w)) []) <$> keys))
    with ((fun uid => pair (ndb_Key "Profile" (inl uid) [])
                        <$> d !! ndb_Key "Profile" (inl uid) [])
            <$> (uid_of <$> keys))
    by (by rewrite <-!list_fmap_compose).
  destruct (names_loop_result d (uid_of <$> keys) ∅)
    as (names & Hrun & Hsound & _ & Hcovers).
  { intros uid Huid. apply list_elem_of_fmap in Huid as (w & -> & Hw).
    destruct (Hall w Hw) as (c & q & Hc & Hq).
    exists q. unfold uid_of. by rewrite Hc. }
  { intros uid dn Hdn. by rewrite lookup_empty in Hdn. }
  rewrite Hrun. f_equal.
  rewrite comprehension_fmap. apply comprehension_ext.
  intros w Hw. destruct (Hall w Hw) as (c & q & Hc & Hq).
  unfold attended_form. rewrite Hc, Hq. simpl.
  destruct (Hcovers (uid_of w)) as [dn Hdn].
  { apply list_elem_of_fmap. by exists w. }
  unfold uid_of in Hdn. rewrite Hc in Hdn. rewrite Hdn. simpl.
  destruct (Hsound _ _ Hdn) as (q' & Hq' & ->).
  rewrite Hq in Hq'. by simplify_eq.
Qed.

(** X30. When some key of the caller's attending list is not the key of a
    stored conference, or the organizer of the conference has no profile,
    [getConferencesToAttend] raises [AttributeError], whatever the other
    keys are; the profile of a new caller is stored all the same. *)
Theorem conferences_to_attend_need_the_organizers st u p w :
  caller_profile st u = Some p ->
  let st' := with_profile st u p in
  w ∈ Profile.conferenceKeysToAttend p ->
  (∀ c q,
      datastore st' !! w = Some (EConference c) ->
      datastore st'
        !! ndb_Key "Profile" (inl (Conference.organizerUserId c)) []
      ≠ Some (EProfile q)) ->
  getConferencesToAttend _copyConferenceToForm (Some u) st
  = (st', inl AttributeError).
Proof.
  intros Hp st' Hw Hno. rewrite (getConferencesToAttend_run _ _ _ Hp).
  fold st'. cbv zeta.
  set (d := datastore st') in *.
  destruct (comprehension organiser_key _) as [e|organisers] eqn:Horg.
  { apply comprehension_raises in Horg as (conf & _ & Hconf).
    by rewrite (organiser_key_raises _ _ Hconf). }
  destruct (names_loop _ ∅) as [e|names] eqn:Hnames.
  { by rewrite (names_loop_raises _ _ _ Hnames). }
  exfalso.
  apply comprehension_inr in Horg.
  apply list_elem_of_lookup in Hw as [i Hi].
  assert (((fun k => pair k <$> d !! k)
             <$> Profile.conferenceKeysToAttend p) !! i
          = Some (pair w <$> d !! w)) as Hconf
    by (by rewrite list_lookup_fmap, Hi).
  destruct (Forall2_lookup_l _ _ _ _ _ Horg Hconf) as (k & Hk & Hkey).
  destruct (d !! w) as [[| c | |]|] eqn:Hc; try done.
  simpl in Hkey. injection Hkey as <-.
  destruct (names_loop_needs_profiles _ _ _ Hnames
              (pair (ndb_Key "Profile" (inl (Conference.organizerUserId c)) [])
                 <$> d !! ndb_Key "Profile"
                           (inl (Conference.organizerUserId c)) []))
    as (k' & q & Hq).
  { apply list_elem_of_fmap. eexists. split; [done|].
    by eapply list_elem_of_lookup_2. }
  destruct (d !! ndb_Key "Profile" (inl (Conference.organizerUserId c)) [])
    as [x|] eqn:Hx; [|done].
  simpl in Hq. injection Hq as <- ->. by destruct (Hno c q).
Qed.

End AttendingProperties.

Lemma conferences_to_attend_follow_the_list_witness :
  getConferencesToAttend example_conference_form (Some bob)
    st_bob_attends_alice
  = (with_profile st_bob_attends_alice bob bob_attending,
     comprehension
       (attended_form example_conference_form
          (datastore (with_profile st_bob_attends_alice bob bob_attending)))
       (Profile.conferenceKeysToAttend bob_attending)).
Proof.
  apply (conferences_to_attend_follow_the_list example_conference_form
           st_bob_attends_alice bob bob_attending).
  - vm_compute. reflexivity.
  - intros w Hw. apply list_elem_of_singleton in Hw. subst w.
    exists (Conference.set_seatsAvailable 1 pycon), (new_profile alice).
    split; vm_compute; reflexivity.
Defined.

Lemma conferences_to_attend_need_the_organizers_witness :
  getConferencesToAttend example_conference_form (Some bob) st_bob_attends
  = (with_profile st_bob_attends bob bob_attending, inl AttributeError).
Proof.
  apply (conferences_to_attend_need_the_organizers example_conference_form
           st_bob_attends bob bob_attending pycon_key).
  - vm_compute. reflexivity.
  - apply list_elem_of_singleton. reflexivity.
  - intros c q Hc Hq. vm_compute in Hc. injection Hc as <-.
    vm_compute in Hq. discriminate Hq.
Defined.

(** Bob sees the conference he attends, with Alice's display name. *)
Example bob_sees_his_conference :
  (getConferencesToAttend example_conference_form (Some bob)
     st_bob_attends_alice).2
  = inr [ConferenceForm.mk (Some "PyCon") None [] None None None None None
           (Some pycon_key) (Some "alice")].
Proof. vm_compute. reflexivity. Qed.
